(** * Format detection in Datumaro: requirement placing and dispatch

    A shallow embedding of [datumaro/components/format_detection.py]:
    the confidence enumeration, the [FormatRequirementsUnmet] exception,
    the methods of [FormatDetectionContext] and [apply_format_detector].

    Python code that raises and mutates is written in a state-and-exception
    monad [M].  The file system is reached through an interface [OS], so
    that the theorems hold whatever the directory tree contains; an
    in-memory tree with CPython's globbing rules gives concrete systems
    to evaluate the definitions on.  Paths follow [posixpath]. *)

From Stdlib Require Import String Ascii List Bool ZArith Lia PeanoNat.
Import ListNotations.
Open Scope list_scope.
Open Scope string_scope.

(** ** Python string operations *)

Module Str.

(** [s.startswith(p)] *)
Definition startswith (p s : string) : bool := String.prefix p s.

(** [s.endswith(p)] for a one-character [p] *)
Fixpoint endswith_char (c : ascii) (s : string) : bool :=
  match s with
  | EmptyString => false
  | String d EmptyString => Ascii.eqb c d
  | String _ s' => endswith_char c s'
  end.

(** [s.split(sep)] for a one-character separator: never empty. *)
Fixpoint split (sep : ascii) (s : string) : list string :=
  match s with
  | EmptyString => [EmptyString]
  | String c s' =>
      if Ascii.eqb c sep then EmptyString :: split sep s'
      else match split sep s' with
           | w :: ws => String c w :: ws
           | [] => [String c EmptyString]
           end
  end.

(** [sep.join(l)] *)
Definition join (sep : string) (l : list string) : string :=
  String.concat sep l.

(** [s.rstrip(c)] for a one-character [c] *)
Fixpoint rstrip (c : ascii) (s : string) : string :=
  match s with
  | EmptyString => EmptyString
  | String d s' =>
      match rstrip c s' with
      | EmptyString => if Ascii.eqb c d then EmptyString
                       else String d EmptyString
      | r => String d r
      end
  end.

(** [c in s] *)
Fixpoint mem (c : ascii) (s : string) : bool :=
  match s with
  | EmptyString => false
  | String d s' => Ascii.eqb c d || mem c s'
  end.

(** The one-character string holding a double quote. *)
Definition dquote : string := String (ascii_of_nat 34) EmptyString.

End Str.

(** ** [os.path] on a POSIX system ([posixpath.py]) *)

Module posixpath.

Definition sep : string := "/".
Definition sep_char : ascii := "/"%char.

Definition isabs (s : string) : bool := Str.startswith sep s.

(** On POSIX the drive is always empty. *)
Definition splitdrive (p : string) : string * string := ("", p).

Definition join (a b : string) : string :=
  if Str.startswith sep b then b
  else if (a =? "") || Str.endswith_char sep_char a then a ++ b
  else a ++ sep ++ b.

(** One pass of the component loop of [normpath]. *)
Definition normpath_step (initial_slashes : nat)
    (new_comps : list string) (comp : string) : list string :=
  if (comp =? "") || (comp =? ".") then new_comps
  else if negb (comp =? "..")
          || ((initial_slashes =? 0)%nat
              && (match new_comps with [] => true | _ => false end))
          || (match new_comps with
              | [] => false
              | _ => last new_comps "" =? ".."
              end)
  then (new_comps ++ [comp])%list
  else removelast new_comps.

Definition normpath (path : string) : string :=
  if path =? "" then "."
  else
    let initial_slashes :=
      if Str.startswith sep path then
        if Str.startswith "//" path && negb (Str.startswith "///" path)
        then 2%nat else 1%nat
      else 0%nat in
    let comps := Str.split sep_char path in
    let new_comps := fold_left (normpath_step initial_slashes) comps [] in
    let path := Str.join sep new_comps in
    let path := Str.join "" (repeat sep initial_slashes) ++ path in
    if path =? "" then "." else path.

Definition basename (p : string) : string :=
  last (Str.split sep_char p) "".

(** [os.path.split]: the head keeps its slashes only when it is made
    of slashes alone. *)
Definition split (p : string) : string * string :=
  let comps := Str.split sep_char p in
  let tail := last comps "" in
  let head := String.substring 0 (String.length p - String.length tail) p in
  let head :=
    if negb (head =? "") && negb (Str.rstrip sep_char head =? "")
    then Str.rstrip sep_char head else head in
  (head, tail).

Definition abspath (cwd path : string) : string :=
  normpath (if isabs path then path else join cwd path).

Fixpoint commonprefix_len (l1 l2 : list string) : nat :=
  match l1, l2 with
  | x :: l1', y :: l2' => if x =? y then S (commonprefix_len l1' l2') else 0
  | _, _ => 0
  end.

Definition nonempty_comps (p : string) : list string :=
  filter (fun x => negb (x =? "")) (Str.split sep_char p).

(** [relpath(path, start)]; [None] stands for the [ValueError] raised on
    an empty [path]. *)
Definition relpath (cwd path start : string) : option string :=
  if path =? "" then None
  else
    let start_list := nonempty_comps (abspath cwd start) in
    let path_list := nonempty_comps (abspath cwd path) in
    let i := commonprefix_len start_list path_list in
    let rel_list :=
      (repeat ".." (length start_list - i) ++ skipn i path_list)%list in
    match rel_list with
    | [] => Some "."
    | c :: cs => Some (fold_left join cs c)
    end.

End posixpath.

(** ** [fnmatch.fnmatch] ([fnmatch.py]; [normcase] is the identity on POSIX) *)

Module fnmatch.

(** What [translate] turns a pattern into: the regular expression
    [.*], [.], a character set, or an escaped character. *)
Inductive token : Type :=
| Star
| AnyChar
| CharSet (negated : bool) (stuff : string)
| Lit (c : ascii).

Definition char_at (j : nat) (s : string) : option ascii := String.get j s.

(** The index [j] of the [']'] that closes a set opened just before
    [rest], found as [translate] does: a leading ['!'] and a [']'] right
    after it do not close the set. *)
Definition set_end (rest : string) : option nat :=
  let j :=
    match char_at 0 rest with
    | Some "!"%char => 1
    | _ => 0
    end in
  let j :=
    match char_at j rest with
    | Some "]"%char => S j
    | _ => j
    end in
  String.index j "]" rest.

(** [translate], with [skip] counting the characters of a set that
    were consumed already. *)
Fixpoint translate_from (skip : nat) (pat : string) : list token :=
  match pat with
  | EmptyString => []
  | String c rest =>
      match skip with
      | S k => translate_from k rest
      | O =>
          if Ascii.eqb c "*" then Star :: translate_from 0 rest
          else if Ascii.eqb c "?" then AnyChar :: translate_from 0 rest
          else if Ascii.eqb c "[" then
            match set_end rest with
            | None => Lit c :: translate_from 0 rest
            | Some j =>
                let stuff := String.substring 0 j rest in
                match stuff with
                | String "!" stuff' =>
                    CharSet true stuff' :: translate_from (S j) rest
                | _ => CharSet false stuff :: translate_from (S j) rest
                end
            end
          else Lit c :: translate_from 0 rest
      end
  end.

Definition translate (pat : string) : list token := translate_from 0 pat.

(** Membership in a set [[stuff]]: single characters and ranges [a-b]. *)
Fixpoint in_set (c : ascii) (stuff : string) : bool :=
  match stuff with
  | EmptyString => false
  | String lo (String "-" (String hi rest)) =>
      ((nat_of_ascii lo <=? nat_of_ascii c)%nat
       && (nat_of_ascii c <=? nat_of_ascii hi)%nat)
      || in_set c rest
  | String x rest => Ascii.eqb c x || in_set c rest
  end.

(** Whole-string match of the translated pattern. *)
Fixpoint match_tokens (ts : list token) (name : string) : bool :=
  match ts with
  | [] => name =? ""
  | Star :: ts' =>
      (fix star (n : string) : bool :=
         match_tokens ts' n
         || match n with
            | EmptyString => false
            | String _ n' => star n'
            end) name
  | AnyChar :: ts' =>
      match name with
      | EmptyString => false
      | String _ n' => match_tokens ts' n'
      end
  | CharSet negated stuff :: ts' =>
      match name with
      | EmptyString => false
      | String c n' => xorb negated (in_set c stuff) && match_tokens ts' n'
      end
  | Lit c :: ts' =>
      match name with
      | EmptyString => false
      | String d n' => Ascii.eqb c d && match_tokens ts' n'
      end
  end.

Definition fnmatchcase (name pat : string) : bool :=
  match_tokens (translate pat) name.

Definition fnmatch (name pat : string) : bool := fnmatchcase name pat.

(** [fnmatch.filter(names, pat)] *)
Definition filter (names : list string) (pat : string) : list string :=
  List.filter (fun n => fnmatch n pat) names.

End fnmatch.

(** ** The operating system, as the module sees it

    [isdir], [isfile] are [os.path.isdir], [os.path.isfile];
    [iglob p] lists what [glob.iglob(p, recursive=True)] yields, in order;
    [open_text p] is [open(p, encoding='utf-8')]: the text of the file, or
    [None] when the call raises [OSError]. *)

Record OS : Type := {
  getcwd : string;
  isdir : string -> bool;
  isfile : string -> bool;
  iglob : string -> list string;
  open_text : string -> option string
}.

(** ** [glob.py] over an in-memory directory tree *)

Module glob.

Definition is_magic_char (c : ascii) : bool :=
  Ascii.eqb c "*" || Ascii.eqb c "?" || Ascii.eqb c "[".

Fixpoint has_magic (s : string) : bool :=
  match s with
  | EmptyString => false
  | String c s' => is_magic_char c || has_magic s'
  end.

(** [escape]: every magic character is wrapped in brackets (the drive
    is empty on POSIX). *)
Fixpoint escape (pathname : string) : string :=
  match pathname with
  | EmptyString => EmptyString
  | String c s' =>
      if is_magic_char c
      then String "[" (String c (String "]" (escape s')))
      else String c (escape s')
  end.

Definition _ishidden (path : string) : bool :=
  match path with
  | String "." _ => true
  | _ => false
  end.

Definition _isrecursive (pattern : string) : bool := pattern =? "**".

(** A directory tree without symbolic links; the entries of a directory
    are listed in the order [os.scandir] reports them. *)
#[warnings="-register-all"] Inductive node : Type :=
| File (text : string)
| Dir (entries : list (string * node)).

Definition is_dir_node (n : node) : bool :=
  match n with Dir _ => true | File _ => false end.

Fixpoint find_entry (name : string) (entries : list (string * node))
  : option node :=
  match entries with
  | [] => None
  | (x, n) :: rest => if x =? name then Some n else find_entry name rest
  end.

(** Path resolution, one component at a time over the stack of the
    directories entered so far (the top is the current node). *)
Definition walk_step (stack : option (list node)) (comp : string)
  : option (list node) :=
  match stack with
  | Some (Dir entries :: above) =>
      if (comp =? "") || (comp =? ".") then stack
      else if comp =? ".." then
        match above with
        | [] => stack
        | _ => Some above
        end
      else
        match find_entry comp entries with
        | Some n => Some (n :: Dir entries :: above)
        | None => None
        end
  | _ => None
  end.

Section Tree.

Variable fs : node.
Variable cwd : string.

Definition lookup (path : string) : option node :=
  if path =? "" then None
  else
    let abs := if posixpath.isabs path then path
               else posixpath.join cwd path in
    match fold_left walk_step
            (Str.split posixpath.sep_char abs) (Some [fs]) with
    | Some (n :: _) => Some n
    | _ => None
    end.

Definition lexists (path : string) : bool :=
  match lookup path with Some _ => true | None => false end.

Definition tree_isdir (path : string) : bool :=
  match lookup path with Some (Dir _) => true | _ => false end.

Definition tree_isfile (path : string) : bool :=
  match lookup path with Some (File _) => true | _ => false end.

Definition tree_open (path : string) : option string :=
  match lookup path with Some (File text) => Some text | _ => None end.

Definition _iterdir (dirname : string) (dironly : bool) : list string :=
  let dirname := if dirname =? "" then "." else dirname in
  match lookup dirname with
  | Some (Dir entries) =>
      map fst
        (List.filter (fun e => negb dironly || is_dir_node (snd e))
           entries)
  | _ => []
  end.

Definition _glob1 (dirname pattern : string) (dironly : bool)
  : list string :=
  let names := _iterdir dirname dironly in
  let names :=
    if negb (_ishidden pattern)
    then List.filter (fun x => negb (_ishidden x)) names
    else names in
  fnmatch.filter names pattern.

Definition _glob0 (dirname basename : string) (dironly : bool)
  : list string :=
  if basename =? "" then
    if tree_isdir dirname then [basename] else []
  else
    if lexists (posixpath.join dirname basename) then [basename] else [].

(** [_rlistdir], by recursion on the directory reached. *)
Fixpoint rlist_node (dironly : bool) (n : node) : list string :=
  match n with
  | File _ => []
  | Dir entries =>
      (fix over (es : list (string * node)) : list string :=
         match es with
         | [] => []
         | (x, child) :: es' =>
             (if (negb dironly || is_dir_node child)
                 && negb (_ishidden x)
              then x :: map (posixpath.join x) (rlist_node dironly child)
              else []) ++ over es'
         end)%list entries
  end.

Definition _rlistdir (dirname : string) (dironly : bool) : list string :=
  let dirname := if dirname =? "" then "." else dirname in
  match lookup dirname with
  | Some n => rlist_node dironly n
  | None => []
  end.

Definition _glob2 (dirname pattern : string) (dironly : bool)
  : list string :=
  "" :: _rlistdir dirname dironly.

(** [_iglob] with [recursive=True]; it calls itself on [dirname], which
    is shorter than [pathname], so [fuel] above the length of the
    pattern is never used up. *)
Fixpoint _iglob (fuel : nat) (pathname : string) (dironly : bool)
  : list string :=
  match fuel with
  | O => []
  | S fuel' =>
      let (dirname, basename) := posixpath.split pathname in
      if negb (has_magic pathname) then
        if negb (basename =? "") then
          if lexists pathname then [pathname] else []
        else
          if tree_isdir dirname then [pathname] else []
      else if dirname =? "" then
        if _isrecursive basename then _glob2 dirname basename dironly
        else _glob1 dirname basename dironly
      else
        let dirs :=
          if negb (dirname =? pathname) && has_magic dirname
          then _iglob fuel' dirname true
          else [dirname] in
        let glob_in_dir :=
          if has_magic basename then
            if _isrecursive basename then _glob2 else _glob1
          else _glob0 in
        flat_map
          (fun dirname =>
             map (posixpath.join dirname)
               (glob_in_dir dirname basename dironly))
          dirs
  end.

Definition tree_iglob (pathname : string) : list string :=
  let it := _iglob (S (String.length pathname)) pathname false in
  if _isrecursive pathname then tl it else it.

Definition tree_os : OS :=
  {| getcwd := cwd;
     isdir := tree_isdir;
     isfile := tree_isfile;
     iglob := tree_iglob;
     open_text := tree_open |}.

End Tree.

End glob.

(** ** The confidence levels *)

Inductive FormatDetectionConfidence : Type :=
| LOW
| MEDIUM.

(** The integer behind each member of the [IntEnum]. *)
Definition value (level : FormatDetectionConfidence) : Z :=
  match level with
  | LOW => 10
  | MEDIUM => 20
  end.

Definition all_levels : list FormatDetectionConfidence := [LOW; MEDIUM].

(** ** Exceptions, outcomes and the state the code runs in *)

(** The exceptions the module tells apart: its own, the one an [assert]
    raises, any other instance of [Exception], and what [except Exception]
    lets through ([KeyboardInterrupt], [SystemExit]). *)
Inductive exn : Type :=
| FormatRequirementsUnmet (failed_alternatives : list string)
| AssertionError (message : string)
| OtherException (name : string)
| BaseExceptionOnly (name : string).

Definition isinstance_Exception (e : exn) : bool :=
  match e with
  | BaseExceptionOnly _ => false
  | _ => true
  end.

Inductive outcome (A : Type) : Type :=
| Returns (a : A)
| Raises (e : exn).
Arguments Returns {A} a.
Arguments Raises {A} e.

(** [FormatDetectionContext._OneOrMoreContext] *)
Record _OneOrMoreContext : Type := {
  failed_alternatives : list string;
  had_successful_alternatives : bool
}.

(** What code run during detection can change outside the context: the
    table of open file descriptors, and a log standing for every other
    observable side effect. *)
Record World : Type := {
  open_files : list nat;
  next_fd : nat;
  effects : list string
}.

(** The mutable attribute of the context, and the world.  While an
    [alternative] block runs, the scope object it saved is referenced by
    the generator's local variable only, so it is kept as a value. *)
Record State : Type := {
  _one_or_more_context : option _OneOrMoreContext;
  world : World
}.

Definition set_one_or_more_context
    (v : option _OneOrMoreContext) (s : State) : State :=
  {| _one_or_more_context := v; world := world s |}.

Definition set_world (w : World) (s : State) : State :=
  {| _one_or_more_context := _one_or_more_context s; world := w |}.

(** The immutable attribute of the context. *)
Record FormatDetectionContext : Type := {
  _root_path : string
}.

Definition M (A : Type) : Type := State -> outcome A * State.

Definition ret {A : Type} (a : A) : M A := fun s => (Returns a, s).

Definition raise {A : Type} (e : exn) : M A := fun s => (Raises e, s).

Definition bind {A B : Type} (m : M A) (k : A -> M B) : M B :=
  fun s =>
    match m s with
    | (Returns a, s') => k a s'
    | (Raises e, s') => (Raises e, s')
    end.

Notation "x <- m ;; k" := (bind m (fun x => k))
  (at level 61, m at next level, right associativity).
Notation "m ;; k" := (bind m (fun _ => k))
  (at level 61, right associativity).

(** [try: body finally: final] *)
Definition try_finally {A : Type} (body : M A) (final : M unit) : M A :=
  fun s =>
    let (r, s1) := body s in
    match final s1 with
    | (Returns _, s2) => (r, s2)
    | (Raises e, s2) => (Raises e, s2)
    end.

(** [assert cond, message] *)
Definition assert (cond : bool) (message : string) : M unit :=
  if cond then ret tt else raise (AssertionError message).

(** [raise FormatRequirementsUnmet(failed_alternatives)]: the constructor
    asserts that the sequence is not empty. *)
Definition raise_FormatRequirementsUnmet {A : Type}
    (failed : list string) : M A :=
  assert (match failed with [] => false | _ => true end) "" ;;
  raise (FormatRequirementsUnmet failed).

(** A text file object: its descriptor and what reading it gives. *)
Record TextIO : Type := {
  fileno : nat;
  text : string
}.

Definition get_world : M World := fun s => (Returns (world s), s).

Definition put_world (w : World) : M unit :=
  fun s => (Returns tt, set_world w s).

(** The descriptor table after one more file is opened, and after the
    descriptor [fd] is closed. *)
Definition allocate (w : World) : World :=
  {| open_files := next_fd w :: open_files w;
     next_fd := S (next_fd w);
     effects := effects w |}.

Definition release (fd : nat) (w : World) : World :=
  {| open_files := List.remove Nat.eq_dec fd (open_files w);
     next_fd := next_fd w;
     effects := effects w |}.

(** [open(path, encoding='utf-8')] *)
Definition open (os : OS) (path : string) : M TextIO :=
  match open_text os path with
  | None => raise (OtherException "OSError")
  | Some t =>
      w <- get_world ;;
      put_world (allocate w) ;;
      ret {| fileno := next_fd w; text := t |}
  end.

(** [f.close()] *)
Definition close (f : TextIO) : M unit :=
  w <- get_world ;;
  put_world (release (fileno f) w).

(** The file object that [open] returns in state [s] for a file holding
    [t], and the states after it is opened and after it is closed. *)
Definition opened_file (s : State) (t : string) : TextIO :=
  {| fileno := next_fd (world s); text := t |}.

Definition after_open (s : State) : State :=
  set_world (allocate (world s)) s.

Definition after_close (f : TextIO) (s : State) : State :=
  set_world (release (fileno f) (world s)) s.

(** [with open(path, encoding='utf-8') as f: block(f)] *)
Definition with_open {A : Type} (os : OS) (path : string)
    (block : TextIO -> M A) : M A :=
  f <- open os path ;;
  try_finally (block f) (close f).

(** ** [FormatDetectionContext] *)

(** The [exclude_fnames] argument: one pattern or a collection of them. *)
Inductive fnames : Type :=
| OnePattern (pattern : string)
| Patterns (patterns : list string).

Definition fnames_tuple (exclude_fnames : fnames) : list string :=
  match exclude_fnames with
  | OnePattern p => [p]
  | Patterns l => l
  end.

Definition quoted (s : string) : string := Str.dquote ++ s ++ Str.dquote.

Definition file_requirement_desc (pattern : string)
    (exclude_fnames : list string) : string :=
  let requirement_desc :=
    "dataset must contain a file matching pattern " ++ quoted pattern in
  match exclude_fnames with
  | [] => requirement_desc
  | _ => requirement_desc ++ " (but not named "
         ++ Str.join ", " (map quoted exclude_fnames) ++ ")"
  end.

Definition placed_within_require_any (req_type : string) : string :=
  "a requirement (" ++ req_type
  ++ ") can't be placed directly within a 'require_any' block".

Definition no_alternative_block : string :=
  "a 'require_any' block must contain at least one 'alternative' block".

Definition alternative_outside_require_any : string :=
  "An 'alternative' block must be directly within a 'require_any' block".

Definition new_OneOrMoreContext : _OneOrMoreContext :=
  {| failed_alternatives := []; had_successful_alternatives := false |}.

Section Context.

Variable os : OS.
Variable self : FormatDetectionContext.

Definition _is_path_within_root (path : string) : bool :=
  if posixpath.isabs path
     || negb (fst (posixpath.splitdrive path) =? "")
  then false
  else
    let path := posixpath.normpath path in
    if Str.startswith (".." ++ posixpath.sep) path then false
    else true.

Definition _start_requirement (req_type : string) : M unit :=
  fun s =>
    assert (match _one_or_more_context s with
            | None => true
            | Some _ => false
            end)
      (placed_within_require_any req_type) s.

Definition fail {A : Type} (requirement_desc : string) : M A :=
  _start_requirement "fail" ;;
  raise_FormatRequirementsUnmet [requirement_desc].

(** The [for] loop of [require_file] over what [glob.iglob] yields;
    when the loop runs out, control reaches the final [self.fail]. *)
Fixpoint require_file_scan (requirement_desc : string)
    (exclude_fnames : list string) (paths : list string) : M string :=
  match paths with
  | [] => fail requirement_desc
  | path :: rest =>
      if isfile os path then
        if existsb (fun pat => fnmatch.fnmatch (posixpath.basename path) pat)
             exclude_fnames
        then require_file_scan requirement_desc exclude_fnames rest
        else
          match posixpath.relpath (getcwd os) path (_root_path self) with
          | Some r => ret r
          | None => raise (OtherException "ValueError")
          end
      else require_file_scan requirement_desc exclude_fnames rest
  end.

Definition pattern_abs (pattern : string) : string :=
  posixpath.join (glob.escape (_root_path self)) pattern.

Definition require_file (pattern : string) (exclude_fnames : fnames)
  : M string :=
  _start_requirement "require_file" ;;
  let exclude_fnames := fnames_tuple exclude_fnames in
  let requirement_desc := file_requirement_desc pattern exclude_fnames in
  (if negb (_is_path_within_root pattern)
   then fail requirement_desc else ret tt) ;;
  require_file_scan requirement_desc exclude_fnames
    (iglob os (pattern_abs pattern)).

Definition requirement_desc_full (path requirement_desc : string)
  : string :=
  path ++ ": " ++ requirement_desc.

(** The [except] clauses of [probe_text_file]. *)
Definition probe_text_file_handler {A : Type}
    (requirement_desc_full : string) (e : exn) : M A :=
  match e with
  | FormatRequirementsUnmet _ => raise e
  | _ => if isinstance_Exception e then fail requirement_desc_full
         else raise e
  end.

(** [with self.probe_text_file(path, requirement_desc) as f: block(f)] *)
Definition probe_text_file {A : Type} (path requirement_desc : string)
    (block : TextIO -> M A) : M A :=
  _start_requirement "probe_text_file" ;;
  let requirement_desc_full :=
    requirement_desc_full path requirement_desc in
  (if negb (_is_path_within_root path)
   then fail requirement_desc_full else ret tt) ;;
  fun s =>
    match with_open os (posixpath.join (_root_path self) path) block s with
    | (Returns a, s') => (Returns a, s')
    | (Raises e, s') => probe_text_file_handler requirement_desc_full e s'
    end.

(** What [require_any] does once its block has completed. *)
Definition require_any_exit : M unit :=
  fun s =>
    match _one_or_more_context s with
    | None => raise (OtherException "AttributeError") s
    | Some c =>
        if had_successful_alternatives c then ret tt s
        else
          (assert (match failed_alternatives c with
                   | [] => false
                   | _ => true
                   end) no_alternative_block ;;
           raise_FormatRequirementsUnmet (failed_alternatives c)) s
    end.

(** [with self.require_any(): block] *)
Definition require_any (block : M unit) : M unit :=
  _start_requirement "require_any" ;;
  (fun s => ret tt (set_one_or_more_context (Some new_OneOrMoreContext) s)) ;;
  try_finally
    (block ;; require_any_exit)
    (fun s => ret tt (set_one_or_more_context None s)).

(** [with self.alternative(): block] *)
Definition alternative (block : M unit) : M unit :=
  fun s =>
    match _one_or_more_context s with
    | None => raise (AssertionError alternative_outside_require_any) s
    | Some saved_one_or_more_context =>
        let (r, s') := block (set_one_or_more_context None s) in
        match r with
        | Raises (FormatRequirementsUnmet e) =>
            (Returns tt,
             set_one_or_more_context
               (Some {| failed_alternatives :=
                          (failed_alternatives saved_one_or_more_context
                           ++ e)%list;
                        had_successful_alternatives :=
                          had_successful_alternatives
                            saved_one_or_more_context |}) s')
        | Raises e =>
            (Raises e,
             set_one_or_more_context (Some saved_one_or_more_context) s')
        | Returns _ =>
            (Returns tt,
             set_one_or_more_context
               (Some {| failed_alternatives :=
                          failed_alternatives saved_one_or_more_context;
                        had_successful_alternatives := true |}) s')
        end
    end.

End Context.

(** ** [apply_format_detector] *)

Definition FormatDetector : Type :=
  FormatDetectionContext -> M (option FormatDetectionConfidence).

(** Truth value of what a detector returns: [None] is false, a member of
    an [IntEnum] is true unless its value is zero. *)
Definition truthy (r : option FormatDetectionConfidence) : bool :=
  match r with
  | None => false
  | Some level => negb (value level =? 0)%Z
  end.

(** [r or FormatDetectionConfidence.MEDIUM] *)
Definition or_MEDIUM (r : option FormatDetectionConfidence)
  : FormatDetectionConfidence :=
  match r with
  | Some level => if truthy r then level else MEDIUM
  | None => MEDIUM
  end.

(** The context is created here, so it starts outside any [require_any]
    block; what remains when the call is over is the world. *)
Definition apply_format_detector (os : OS) (dataset_root_path : string)
    (detector : FormatDetector) (w : World)
  : outcome FormatDetectionConfidence * World :=
  let context := {| _root_path := dataset_root_path |} in
  let run : M FormatDetectionConfidence :=
    (if negb (isdir os dataset_root_path)
     then fail ("root path " ++ dataset_root_path
                ++ " must refer to a directory")
     else ret tt) ;;
    r <- detector context ;;
    ret (or_MEDIUM r) in
  let (r, s) := run {| _one_or_more_context := None; world := w |} in
  (r, world s).

(** A sequence of [alternative] blocks, one after the other. *)
Fixpoint alternatives (blocks : list (M unit)) : M unit :=
  match blocks with
  | [] => ret tt
  | b :: rest => alternative b ;; alternatives rest
  end.

(** A side effect of a detector: one more entry in the log. *)
Definition effect (e : string) : M unit :=
  w <- get_world ;;
  put_world {| open_files := open_files w;
               next_fd := next_fd w;
               effects := (effects w ++ [e])%list |}.

(** ** Reference runs, used to state what a [require_any] block does *)

(** The blocks run one after the other, each one from a context that is
    outside any [require_any] block and in the world the previous one
    left; the result records how each block ended, and the last world. *)
Fixpoint run_blocks (blocks : list (M unit)) (w : World)
  : list (outcome unit) * World :=
  match blocks with
  | [] => ([], w)
  | b :: rest =>
      let (r, s') := b {| _one_or_more_context := None; world := w |} in
      let (rs, w') := run_blocks rest (world s') in
      (r :: rs, w')
  end.

(** A block that ended as an [alternative] block expects: it returned, or
    it raised [FormatRequirementsUnmet] (never with an empty sequence). *)
Definition settled (r : outcome unit) : Prop :=
  match r with
  | Returns _ => True
  | Raises (FormatRequirementsUnmet (_ :: _)) => True
  | Raises _ => False
  end.

Definition succeeded (r : outcome unit) : bool :=
  match r with
  | Returns _ => true
  | Raises _ => false
  end.

(** The failure descriptions a block ended with. *)
Definition failures_of (r : outcome unit) : list string :=
  match r with
  | Raises (FormatRequirementsUnmet l) => l
  | _ => []
  end.

(** The scope object after one more alternative ended as [r]. *)
Definition record_alternative (c : _OneOrMoreContext) (r : outcome unit)
  : _OneOrMoreContext :=
  {| failed_alternatives := (failed_alternatives c ++ failures_of r)%list;
     had_successful_alternatives :=
       had_successful_alternatives c || succeeded r |}.

(** A path component: not empty, and not starting with the separator. *)
Definition component (x : string) : Prop :=
  x <> "" /\ posixpath.isabs x = false.

(** A block of a context manager that leaves the context outside any
    [require_any] block if it found it so, as nested [with] statements
    do. *)
Definition well_bracketed {A B : Type} (block : A -> M B) : Prop :=
  forall (a : A) (s : State),
    _one_or_more_context s = None ->
    _one_or_more_context (snd (block a s)) = None.

(** The pattern, as the claim about traversal reads it: one of its
    segments is [..]. *)
Definition has_parent_segment (pattern : string) : bool :=
  existsb (fun c => c =? "..") (Str.split posixpath.sep_char pattern).

(** ** A small file system to run the definitions on *)

Definition sample_tree : glob.node :=
  glob.Dir
    [("data",
      glob.Dir
        [("a",
          glob.Dir
            [("b", glob.Dir [("c.txt", glob.File "hello")]);
             (".hid", glob.Dir [("h.txt", glob.File "")])]);
         ("b.txt", glob.File "bee")]);
     ("etc", glob.Dir [("passwd", glob.File "root")])].

Definition sample_os : OS := glob.tree_os sample_tree "/".

Definition sample_context : FormatDetectionContext :=
  {| _root_path := "/data" |}.

Definition sample_world : World :=
  {| open_files := []; next_fd := 3; effects := [] |}.

Definition sample_state : State :=
  {| _one_or_more_context := None; world := sample_world |}.

Definition sample_state_in_require_any : State :=
  {| _one_or_more_context := Some new_OneOrMoreContext;
     world := sample_world |}.

(** ** Notions used to state further properties *)

(** A segment that names something: not empty, not [.] and not [..]. *)
Definition proper_segment (c : string) : Prop :=
  c <> "" /\ c <> "." /\ c <> "..".

(** No separator in the string. *)
Definition slash_free (c : string) : Prop :=
  Str.mem posixpath.sep_char c = false.

(** The regular files among the scanned paths that no exclusion
    pattern rules out. *)
Definition qualifies (os : OS) (exclude_fnames : list string)
    (path : string) : bool :=
  isfile os path
  && negb (existsb
             (fun pat => fnmatch.fnmatch (posixpath.basename path) pat)
             exclude_fnames).

(** An outcome that is not a [FormatRequirementsUnmet] without any
    description. *)
Definition describes_failure {A : Type} (r : outcome A) : Prop :=
  match r with
  | Raises (FormatRequirementsUnmet []) => False
  | _ => True
  end.

(** What the loop of [normpath] keeps on a relative path: some [..]
    segments, then proper segments only. *)
Definition climbs_then_descends (l : list string) : Prop :=
  exists (k : nat) (ps : list string),
    l = (repeat ".." k ++ ps)%list /\ Forall proper_segment ps.

(** * Properties *)

(** ** The library models on concrete inputs *)

Example normpath_inner_dotdot :
  posixpath.normpath "a/../b.txt" = "b.txt".
Proof. reflexivity. Qed.

Example normpath_escape :
  posixpath.normpath "a/../../etc/passwd" = "../etc/passwd".
Proof. reflexivity. Qed.

Example normpath_slashes :
  posixpath.normpath "//x/./y//../z/" = "//x/z".
Proof. reflexivity. Qed.

Example relpath_inner_dotdot :
  posixpath.relpath "/" "/data/a/../b.txt" "/data" = Some "b.txt".
Proof. reflexivity. Qed.

Example split_examples :
  posixpath.split "/data/a/b.txt" = ("/data/a", "b.txt")
  /\ posixpath.split "/x" = ("/", "x")
  /\ posixpath.split "a/" = ("a", "")
  /\ posixpath.split "b.txt" = ("", "b.txt").
Proof. repeat split. Qed.

Example fnmatch_examples :
  fnmatch.fnmatch "c.txt" "*.txt" = true
  /\ fnmatch.fnmatch "c.txt" "*.csv" = false
  /\ fnmatch.fnmatch "c.txt" "?.t[w-y]t" = true
  /\ fnmatch.fnmatch "c.txt" "[!a-b].txt" = true
  /\ fnmatch.fnmatch "a*b" "a[*]b" = true
  /\ fnmatch.fnmatch "axb" "a[*]b" = false
  /\ fnmatch.fnmatch "[x" "[x" = true
  /\ fnmatch.fnmatch "]" "[]]" = true
  /\ fnmatch.fnmatch "" "*" = true.
Proof. repeat split. Qed.

Example glob_examples :
  iglob sample_os "/data/a/**/*.txt" = ["/data/a/b/c.txt"]
  /\ iglob sample_os "/data/**/*.txt" = ["/data/b.txt"; "/data/a/b/c.txt"]
  /\ iglob sample_os "/data/a/../b.txt" = ["/data/a/../b.txt"]
  /\ iglob sample_os "/data/*" = ["/data/a"; "/data/b.txt"]
  /\ iglob sample_os "/data/**"
     = ["/data/"; "/data/a"; "/data/a/b"; "/data/a/b/c.txt"; "/data/b.txt"]
  /\ iglob sample_os "/data/*/" = ["/data/a/"]
  /\ iglob sample_os "/data/a/.*/*" = ["/data/a/.hid/h.txt"]
  /\ iglob sample_os "/data/../etc/p*" = ["/data/../etc/passwd"]
  /\ iglob sample_os "/data/a/*.csv" = []
  /\ isfile sample_os "/data/a/../b.txt" = true
  /\ isfile sample_os "/data/b.txt/" = false
  /\ isfile sample_os "/data/b.txt/../b.txt" = false
  /\ isfile sample_os "/data/.." = false
  /\ isdir sample_os "/data/a/.." = true.
Proof. repeat split. Qed.

Example escape_example :
  glob.escape "/da*ta/[x]" = "/da[*]ta/[[]x]".
Proof. reflexivity. Qed.

(** The two scenarios of the specification: a root that holds
    [a/b/c.txt], and a detector that calls [fail] at once. *)
Example require_file_scenario :
  require_file sample_os sample_context "a/**/*.txt" (Patterns [])
    sample_state
  = (Returns "a/b/c.txt", sample_state)
  /\ require_file sample_os sample_context "a/**/*.csv" (Patterns [])
       sample_state
     = (Raises (FormatRequirementsUnmet
                  [file_requirement_desc "a/**/*.csv" []]), sample_state).
Proof. split; reflexivity. Qed.

Example fail_scenario :
  apply_format_detector sample_os "/data" (fun _ => fail "need X")
    sample_world
  = (Raises (FormatRequirementsUnmet ["need X"]), sample_world).
Proof. reflexivity. Qed.

(** ** Basic facts about placing requirements *)

Lemma start_requirement_outside (req_type : string) (s : State) :
  _one_or_more_context s = None ->
  _start_requirement req_type s = (Returns tt, s).
Proof.
  intros H. unfold _start_requirement. rewrite H. reflexivity.
Qed.

Lemma start_requirement_inside (req_type : string) (s : State)
    (c : _OneOrMoreContext) :
  _one_or_more_context s = Some c ->
  _start_requirement req_type s
  = (Raises (AssertionError (placed_within_require_any req_type)), s).
Proof.
  intros H. unfold _start_requirement. rewrite H. reflexivity.
Qed.

Lemma fail_outside (A : Type) (requirement_desc : string) (s : State) :
  _one_or_more_context s = None ->
  @fail A requirement_desc s
  = (Raises (FormatRequirementsUnmet [requirement_desc]), s).
Proof.
  intros H. unfold fail, bind. rewrite (start_requirement_outside _ _ H).
  reflexivity.
Qed.

Lemma fail_inside (A : Type) (requirement_desc : string) (s : State)
    (c : _OneOrMoreContext) :
  _one_or_more_context s = Some c ->
  @fail A requirement_desc s
  = (Raises (AssertionError (placed_within_require_any "fail")), s).
Proof.
  intros H. unfold fail, bind. rewrite (start_requirement_inside _ _ _ H).
  reflexivity.
Qed.

(** ** The dispatcher *)

(** C8: when the root path is not an existing directory,
    [apply_format_detector] raises [FormatRequirementsUnmet] with the one
    description of the root path, and it does so whatever the detector is
    and without any change to the world: the detector is not called. *)
Theorem apply_format_detector_not_a_directory
    (os : OS) (dataset_root_path : string) (detector : FormatDetector)
    (w : World) :
  isdir os dataset_root_path = false ->
  apply_format_detector os dataset_root_path detector w
  = (Raises (FormatRequirementsUnmet
               ["root path " ++ dataset_root_path
                ++ " must refer to a directory"]), w).
Proof.
  intros Hdir. unfold apply_format_detector, bind. rewrite Hdir. cbn.
  reflexivity.
Qed.

Lemma apply_format_detector_not_a_directory_witness :
  apply_format_detector sample_os "/data/b.txt"
    (fun _ => effect "detector called" ;; ret (Some LOW)) sample_world
  = (Raises (FormatRequirementsUnmet
               ["root path /data/b.txt must refer to a directory"]),
     sample_world).
Proof.
  apply (apply_format_detector_not_a_directory sample_os "/data/b.txt").
  reflexivity.
Defined.

Lemma value_positive (level : FormatDetectionConfidence) :
  (0 < value level)%Z.
Proof. destruct level; reflexivity. Qed.

Lemma or_MEDIUM_level (level : FormatDetectionConfidence) :
  or_MEDIUM (Some level) = level.
Proof.
  unfold or_MEDIUM, truthy. pose proof (value_positive level) as Hpos.
  destruct (Z.eqb_spec (value level) 0) as [Hz | Hz]; [lia | reflexivity].
Qed.

(** C9: when the root is a directory and the detector returns, the
    dispatcher returns the level the detector returned, and [MEDIUM] when
    the detector returned [None]; the value of every level is positive,
    so [or] never replaces a level. *)
Theorem apply_format_detector_confidence
    (os : OS) (dataset_root_path : string) (detector : FormatDetector)
    (w : World) (r : option FormatDetectionConfidence) (s' : State) :
  isdir os dataset_root_path = true ->
  detector {| _root_path := dataset_root_path |}
    {| _one_or_more_context := None; world := w |} = (Returns r, s') ->
  apply_format_detector os dataset_root_path detector w
  = (Returns (match r with Some level => level | None => MEDIUM end),
     world s')
  /\ Forall (fun level => (0 < value level)%Z /\ truthy (Some level) = true)
       all_levels
  /\ (forall level, In level all_levels).
Proof.
  intros Hdir Hdet. split; [| split].
  - unfold apply_format_detector, bind. rewrite Hdir. cbn. rewrite Hdet.
    cbn. destruct r as [level |]; [| reflexivity].
    rewrite or_MEDIUM_level. reflexivity.
  - repeat constructor.
  - intros []; cbn; auto.
Qed.

Lemma apply_format_detector_confidence_witness :
  apply_format_detector sample_os "/data" (fun _ => ret (Some LOW))
    sample_world = (Returns LOW, sample_world)
  /\ apply_format_detector sample_os "/data" (fun _ => ret None)
       sample_world = (Returns MEDIUM, sample_world).
Proof.
  split.
  - apply (apply_format_detector_confidence sample_os "/data"
             (fun _ => ret (Some LOW)) sample_world (Some LOW) sample_state);
      reflexivity.
  - apply (apply_format_detector_confidence sample_os "/data"
             (fun _ => ret None) sample_world None sample_state);
      reflexivity.
Defined.

(** ** [require_file] *)

Lemma is_path_within_root_rejects (path : string) :
  posixpath.isabs path = true
  \/ Str.startswith "../" (posixpath.normpath path) = true ->
  _is_path_within_root path = false.
Proof.
  unfold _is_path_within_root. intros [Habs | Hup].
  - rewrite Habs. reflexivity.
  - destruct (posixpath.isabs path
              || negb (fst (posixpath.splitdrive path) =? "")).
    + reflexivity.
    + change (".." ++ posixpath.sep) with "../". rewrite Hup. reflexivity.
Qed.

(** C1, as the code has it: a pattern that is an absolute path, or whose
    normal form ([os.path.normpath]) starts with a [..] segment followed
    by the separator, makes [require_file] raise
    [FormatRequirementsUnmet] with the description of the requirement,
    whatever the file system holds. *)
Theorem require_file_rejects_escaping_pattern
    (os : OS) (self : FormatDetectionContext) (pattern : string)
    (exclude_fnames : fnames) (s : State) :
  _one_or_more_context s = None ->
  posixpath.isabs pattern = true
  \/ Str.startswith "../" (posixpath.normpath pattern) = true ->
  require_file os self pattern exclude_fnames s
  = (Raises (FormatRequirementsUnmet
               [file_requirement_desc pattern (fnames_tuple exclude_fnames)]),
     s).
Proof.
  intros Hout Hesc. unfold require_file, bind.
  rewrite (start_requirement_outside _ _ Hout).
  rewrite (is_path_within_root_rejects _ Hesc). cbn [negb].
  rewrite (fail_outside _ _ _ Hout). reflexivity.
Qed.

Lemma require_file_rejects_escaping_pattern_witness :
  require_file sample_os sample_context "a/../../etc/passwd" (Patterns [])
    sample_state
  = (Raises (FormatRequirementsUnmet
               [file_requirement_desc "a/../../etc/passwd" []]),
     sample_state)
  /\ require_file sample_os sample_context "/etc/passwd" (OnePattern "x")
       sample_state
     = (Raises (FormatRequirementsUnmet
                  [file_requirement_desc "/etc/passwd" ["x"]]),
        sample_state).
Proof.
  split.
  - apply (require_file_rejects_escaping_pattern sample_os sample_context
             "a/../../etc/passwd" (Patterns []) sample_state).
    + reflexivity.
    + right. reflexivity.
  - apply (require_file_rejects_escaping_pattern sample_os sample_context
             "/etc/passwd" (OnePattern "x") sample_state).
    + reflexivity.
    + left. reflexivity.
Defined.

(** C1, as the claim has it, fails: the pattern [a/../b.txt] has a [..]
    segment, and in a root that holds the directory [a] and the file
    [b.txt] the requirement is met. *)
Lemma require_file_inner_parent_segment_accepted :
  has_parent_segment "a/../b.txt" = true
  /\ require_file sample_os sample_context "a/../b.txt" (Patterns [])
       sample_state
     = (Returns "b.txt", sample_state).
Proof. split; reflexivity. Qed.

Lemma split_no_sep (c : ascii) (s : string) :
  Forall (fun w => Str.mem c w = false) (Str.split c s).
Proof.
  induction s as [| d s IH]; cbn [Str.split].
  - repeat constructor.
  - destruct (Ascii.eqb_spec d c) as [-> | Hne].
    + constructor; [reflexivity | exact IH].
    + destruct (Str.split c s) as [| w ws].
      * constructor; [| constructor]. cbn.
        destruct (Ascii.eqb_spec c d); [congruence | reflexivity].
      * inversion IH as [| ? ? Hw Hws]; subst.
        constructor; [| exact Hws]. cbn. rewrite Hw.
        destruct (Ascii.eqb_spec c d); [congruence | reflexivity].
Qed.

Lemma isabs_cons (d : ascii) (a : string) :
  posixpath.isabs (String d a)
  = if ascii_dec "/" d then true else false.
Proof.
  unfold posixpath.isabs, Str.startswith, posixpath.sep.
  cbn [String.prefix]. destruct (ascii_dec "/" d); [| reflexivity].
  destruct a; reflexivity.
Qed.

Lemma isabs_no_sep (w : string) :
  Str.mem posixpath.sep_char w = false -> posixpath.isabs w = false.
Proof.
  destruct w as [| d w]; [reflexivity |]. intros Hmem.
  cbn [Str.mem] in Hmem. apply orb_false_iff in Hmem.
  destruct Hmem as [Hd _].
  unfold posixpath.isabs, Str.startswith, posixpath.sep.
  cbn [String.prefix].
  destruct (ascii_dec "/" d) as [<- | Hne]; [| reflexivity].
  unfold posixpath.sep_char in Hd. rewrite Ascii.eqb_refl in Hd.
  discriminate.
Qed.

Lemma nonempty_comps_component (p : string) :
  Forall component (posixpath.nonempty_comps p).
Proof.
  unfold posixpath.nonempty_comps. apply Forall_forall. intros x Hx.
  apply filter_In in Hx. destruct Hx as [Hin Hne].
  pose proof (split_no_sep posixpath.sep_char p) as Hall.
  rewrite Forall_forall in Hall. split.
  - intros ->. discriminate.
  - apply isabs_no_sep, Hall, Hin.
Qed.

Lemma join_component (a b : string) :
  component a -> posixpath.isabs b = false ->
  component (posixpath.join a b).
Proof.
  intros [Hne Habs] Hb. unfold posixpath.join.
  unfold posixpath.isabs in Hb. rewrite Hb.
  destruct a as [| d a]; [congruence |].
  rewrite isabs_cons in Habs.
  destruct ((String d a =? "") || Str.endswith_char posixpath.sep_char
                                    (String d a));
    (split; [discriminate |]);
    cbn [String.append]; rewrite isabs_cons; exact Habs.
Qed.

Lemma fold_join_component (cs : list string) (c : string) :
  component c -> Forall component cs ->
  component (fold_left posixpath.join cs c).
Proof.
  revert c. induction cs as [| b cs IH]; intros c Hc Hcs; cbn.
  - exact Hc.
  - inversion Hcs as [| ? ? Hb Hrest]; subst.
    apply IH; [| exact Hrest].
    apply join_component; [exact Hc | apply Hb].
Qed.

Lemma relpath_relative (cwd path start r : string) :
  posixpath.relpath cwd path start = Some r -> posixpath.isabs r = false.
Proof.
  unfold posixpath.relpath. destruct (path =? ""); [discriminate |].
  set (start_list := posixpath.nonempty_comps _).
  set (path_list := posixpath.nonempty_comps _).
  set (i := posixpath.commonprefix_len _ _).
  assert (Hall : Forall component
                   (repeat ".." (length start_list - i)
                    ++ skipn i path_list)%list).
  { apply Forall_app. split.
    - apply Forall_forall. intros x Hx. apply repeat_spec in Hx. subst x.
      split; [discriminate | reflexivity].
    - apply Forall_forall. intros x Hx.
      pose proof (nonempty_comps_component
                    (posixpath.abspath cwd path)) as Hp.
      rewrite Forall_forall in Hp. apply Hp. fold path_list.
      rewrite <- (firstn_skipn i path_list). apply in_or_app. right.
      exact Hx. }
  destruct (repeat ".." (length start_list - i) ++ skipn i path_list)%list
    as [| c cs].
  - intros [= <-]. reflexivity.
  - intros [= <-]. inversion Hall as [| ? ? Hc Hcs]; subst.
    apply (fold_join_component cs c Hc Hcs).
Qed.

Lemma require_file_scan_returns
    (os : OS) (self : FormatDetectionContext) (requirement_desc : string)
    (exclude_fnames paths : list string) (s s' : State) (r : string) :
  require_file_scan os self requirement_desc exclude_fnames paths s
  = (Returns r, s') ->
  s' = s
  /\ exists path,
       In path paths
       /\ isfile os path = true
       /\ (forall pat, In pat exclude_fnames ->
             fnmatch.fnmatch (posixpath.basename path) pat = false)
       /\ posixpath.relpath (getcwd os) path (_root_path self) = Some r.
Proof.
  induction paths as [| path rest IH]; cbn [require_file_scan]; intros Hrun.
  - unfold fail, bind in Hrun.
    destruct (_start_requirement "fail" s) as [[[] | e] s1] eqn:Hstart;
      cbn in Hrun; discriminate.
  - destruct (isfile os path) eqn:Hfile.
    + destruct (existsb _ exclude_fnames) eqn:Hex.
      * destruct (IH Hrun) as [Hs [p [Hin Hp]]].
        split; [exact Hs |]. exists p. split; [right; exact Hin | exact Hp].
      * destruct (posixpath.relpath _ path _) as [r0 |] eqn:Hrel;
          cbn in Hrun; [| discriminate].
        injection Hrun as -> ->. split; [reflexivity |].
        exists path. repeat split; [left; reflexivity | exact Hfile | |
                                    exact Hrel].
        intros pat Hpat.
        destruct (fnmatch.fnmatch (posixpath.basename path) pat) eqn:Hm;
          [| reflexivity].
        assert (Hsome : existsb
                          (fun pat => fnmatch.fnmatch
                                        (posixpath.basename path) pat)
                          exclude_fnames = true).
        { apply existsb_exists. exists pat. split; assumption. }
        congruence.
    + destruct (IH Hrun) as [Hs [p [Hin Hp]]].
      split; [exact Hs |]. exists p. split; [right; exact Hin | exact Hp].
Qed.

Lemma require_file_scan_all_excluded
    (os : OS) (self : FormatDetectionContext) (requirement_desc : string)
    (exclude_fnames paths : list string) (s : State) :
  _one_or_more_context s = None ->
  (forall path, In path paths -> isfile os path = true ->
     exists pat, In pat exclude_fnames
                 /\ fnmatch.fnmatch (posixpath.basename path) pat = true) ->
  require_file_scan os self requirement_desc exclude_fnames paths s
  = (Raises (FormatRequirementsUnmet [requirement_desc]), s).
Proof.
  intros Hout. induction paths as [| path rest IH]; cbn [require_file_scan];
    intros Hall.
  - apply fail_outside, Hout.
  - assert (Hrest : forall p, In p rest -> isfile os p = true ->
              exists pat, In pat exclude_fnames
                /\ fnmatch.fnmatch (posixpath.basename p) pat = true).
    { intros p Hp. apply Hall. right. exact Hp. }
    destruct (isfile os path) eqn:Hfile; [| apply IH, Hrest].
    destruct (Hall path (or_introl eq_refl) Hfile) as [pat [Hin Hm]].
    assert (Hsome : existsb
                      (fun pat => fnmatch.fnmatch
                                    (posixpath.basename path) pat)
                      exclude_fnames = true).
    { apply existsb_exists. exists pat. split; assumption. }
    rewrite Hsome. apply IH, Hrest.
Qed.

Lemma fail_state (A : Type) (requirement_desc : string) (s : State) :
  snd (@fail A requirement_desc s) = s.
Proof.
  destruct (_one_or_more_context s) as [c |] eqn:Hs.
  - rewrite (fail_inside _ _ _ _ Hs). reflexivity.
  - rewrite (fail_outside _ _ _ Hs). reflexivity.
Qed.

Lemma require_file_scan_state
    (os : OS) (self : FormatDetectionContext) (requirement_desc : string)
    (exclude_fnames paths : list string) (s : State) :
  snd (require_file_scan os self requirement_desc exclude_fnames paths s) = s.
Proof.
  induction paths as [| path rest IH]; cbn [require_file_scan].
  - apply fail_state.
  - destruct (isfile os path); [| exact IH].
    destruct (existsb _ exclude_fnames); [exact IH |].
    destruct (posixpath.relpath _ path _); reflexivity.
Qed.

(** [require_file] only reads: the state is as it was. *)
Lemma require_file_state
    (os : OS) (self : FormatDetectionContext) (pattern : string)
    (exclude_fnames : fnames) (s : State) :
  snd (require_file os self pattern exclude_fnames s) = s.
Proof.
  unfold require_file, bind.
  destruct (_one_or_more_context s) as [c |] eqn:Hs.
  - rewrite (start_requirement_inside _ _ _ Hs). reflexivity.
  - rewrite (start_requirement_outside _ _ Hs).
    destruct (_is_path_within_root pattern); cbn [negb ret].
    + apply require_file_scan_state.
    + rewrite (fail_outside _ _ _ Hs). reflexivity.
Qed.

(** C7: when [require_file] returns, what it returns is a relative path,
    the form relative to the root ([os.path.relpath]) of a path that the
    scan of the pattern produced, that is a regular file at the time of
    the call, and whose file name matches none of the exclusion patterns.
    When every regular file the scan produces has an excluded name,
    [require_file] raises [FormatRequirementsUnmet]. *)
Theorem require_file_returns_qualifying_file
    (os : OS) (self : FormatDetectionContext) (pattern : string)
    (exclude_fnames : fnames) (s : State) :
  (forall (r : string) (s' : State),
     require_file os self pattern exclude_fnames s = (Returns r, s') ->
     posixpath.isabs r = false
     /\ exists path,
          In path (iglob os (pattern_abs self pattern))
          /\ posixpath.relpath (getcwd os) path (_root_path self) = Some r
          /\ isfile os path = true
          /\ (forall pat, In pat (fnames_tuple exclude_fnames) ->
                fnmatch.fnmatch (posixpath.basename path) pat = false))
  /\ (_one_or_more_context s = None ->
      (forall path,
         In path (iglob os (pattern_abs self pattern)) ->
         isfile os path = true ->
         exists pat,
           In pat (fnames_tuple exclude_fnames)
           /\ fnmatch.fnmatch (posixpath.basename path) pat = true) ->
      require_file os self pattern exclude_fnames s
      = (Raises (FormatRequirementsUnmet
                   [file_requirement_desc pattern
                      (fnames_tuple exclude_fnames)]), s)).
Proof.
  split.
  - intros r s' Hrun. unfold require_file, bind in Hrun.
    destruct (_start_requirement "require_file" s) as [[[] | e] s1]
      eqn:Hstart; [| discriminate].
    destruct (_is_path_within_root pattern); cbn [negb] in Hrun.
    + cbn [ret] in Hrun.
      apply require_file_scan_returns in Hrun.
      destruct Hrun as [_ [path [Hin [Hfile [Hex Hrel]]]]].
      split; [exact (relpath_relative _ _ _ _ Hrel) |].
      exists path. repeat split; assumption.
    + unfold fail, bind in Hrun.
      destruct (_start_requirement "fail" s1) as [[[] | e] s2];
        cbn in Hrun; discriminate.
  - intros Hout Hall. unfold require_file, bind.
    rewrite (start_requirement_outside _ _ Hout).
    destruct (_is_path_within_root pattern); cbn [negb].
    + cbn [ret]. apply require_file_scan_all_excluded; assumption.
    + rewrite (fail_outside _ _ _ Hout). reflexivity.
Qed.

Lemma require_file_returns_qualifying_file_witness :
  (posixpath.isabs "a/b/c.txt" = false
   /\ exists path,
        In path (iglob sample_os (pattern_abs sample_context "**/*.txt"))
        /\ posixpath.relpath "/" path "/data" = Some "a/b/c.txt"
        /\ isfile sample_os path = true
        /\ (forall pat, In pat ["b.*"] ->
              fnmatch.fnmatch (posixpath.basename path) pat = false))
  /\ require_file sample_os sample_context "*.txt" (OnePattern "b.*")
       sample_state
     = (Raises (FormatRequirementsUnmet
                  [file_requirement_desc "*.txt" ["b.*"]]), sample_state).
Proof.
  split.
  - apply (proj1 (require_file_returns_qualifying_file sample_os
                    sample_context "**/*.txt" (OnePattern "b.*")
                    sample_state) "a/b/c.txt" sample_state).
    reflexivity.
  - apply (proj2 (require_file_returns_qualifying_file sample_os
                    sample_context "*.txt" (OnePattern "b.*")
                    sample_state)).
    + reflexivity.
    + intros path Hin _. exists "b.*".
      destruct Hin as [<- | []]. split; [left |]; reflexivity.
Defined.

(** ** [require_any] and [alternative] *)

Lemma require_any_outside (block : M unit) (s : State) :
  _one_or_more_context s = None ->
  require_any block s
  = (fst ((block ;; require_any_exit)
            (set_one_or_more_context (Some new_OneOrMoreContext) s)),
     set_one_or_more_context None
       (snd ((block ;; require_any_exit)
               (set_one_or_more_context (Some new_OneOrMoreContext) s)))).
Proof.
  intros Hout. unfold require_any.
  unfold bind at 1. rewrite (start_requirement_outside _ _ Hout).
  unfold bind at 1. cbn [ret]. unfold try_finally.
  destruct ((block ;; require_any_exit)
              (set_one_or_more_context (Some new_OneOrMoreContext) s))
    as [r s2].
  reflexivity.
Qed.

Lemma require_any_inside (block : M unit) (s : State)
    (c : _OneOrMoreContext) :
  _one_or_more_context s = Some c ->
  require_any block s
  = (Raises (AssertionError (placed_within_require_any "require_any")), s).
Proof.
  intros Hin. unfold require_any. unfold bind at 1.
  rewrite (start_requirement_inside _ _ _ Hin). reflexivity.
Qed.

Lemma alternative_settled (block : M unit) (c : _OneOrMoreContext)
    (w : World) :
  settled (fst (block {| _one_or_more_context := None; world := w |})) ->
  alternative block {| _one_or_more_context := Some c; world := w |}
  = (Returns tt,
     {| _one_or_more_context :=
          Some (record_alternative c
                  (fst (block {| _one_or_more_context := None;
                                 world := w |})));
        world :=
          world (snd (block {| _one_or_more_context := None;
                               world := w |})) |}).
Proof.
  unfold alternative, set_one_or_more_context, record_alternative.
  cbn [_one_or_more_context world].
  destruct (block {| _one_or_more_context := None; world := w |})
    as [[[] | e] s'];
    cbn [fst snd settled failures_of succeeded].
  - intros _. rewrite app_nil_r, orb_true_r. reflexivity.
  - destruct e as [[| d l] | | |]; intros Hset; try contradiction.
    rewrite orb_false_r. reflexivity.
Qed.

Lemma alternatives_run (blocks : list (M unit)) :
  forall (c : _OneOrMoreContext) (w : World),
    Forall settled (fst (run_blocks blocks w)) ->
    alternatives blocks {| _one_or_more_context := Some c; world := w |}
    = (Returns tt,
       {| _one_or_more_context :=
            Some {| failed_alternatives :=
                      (failed_alternatives c
                       ++ flat_map failures_of
                            (fst (run_blocks blocks w)))%list;
                    had_successful_alternatives :=
                      had_successful_alternatives c
                      || existsb succeeded (fst (run_blocks blocks w)) |};
          world := snd (run_blocks blocks w) |}).
Proof.
  induction blocks as [| b rest IH]; intros c w Hall.
  - cbn. rewrite app_nil_r, orb_false_r. destruct c. reflexivity.
  - cbn [alternatives run_blocks] in *. unfold bind.
    destruct (b {| _one_or_more_context := None; world := w |})
      as [r s'] eqn:Hb.
    destruct (run_blocks rest (world s')) as [rs w'] eqn:Hrest.
    cbn [fst snd] in *. inversion Hall as [| ? ? Hr Hrs]; subst.
    rewrite alternative_settled by (rewrite Hb; exact Hr).
    rewrite Hb. cbn [fst snd].
    rewrite IH by (rewrite Hrest; exact Hrs).
    rewrite Hrest. cbn [fst snd record_alternative failed_alternatives
                          had_successful_alternatives flat_map existsb].
    rewrite <- app_assoc, <- orb_assoc. reflexivity.
Qed.

(** What a [require_any] block made of [alternative] blocks comes to. *)
Lemma require_any_alternatives (blocks : list (M unit)) (w : World) :
  Forall settled (fst (run_blocks blocks w)) ->
  require_any (alternatives blocks)
    {| _one_or_more_context := None; world := w |}
  = (if existsb succeeded (fst (run_blocks blocks w)) then Returns tt
     else match flat_map failures_of (fst (run_blocks blocks w)) with
          | [] => Raises (AssertionError no_alternative_block)
          | l => Raises (FormatRequirementsUnmet l)
          end,
     {| _one_or_more_context := None; world := snd (run_blocks blocks w) |}).
Proof.
  intros Hall. rewrite require_any_outside by reflexivity.
  unfold bind, set_one_or_more_context. cbn [world].
  rewrite (alternatives_run blocks new_OneOrMoreContext w Hall).
  unfold require_any_exit.
  cbn [_one_or_more_context had_successful_alternatives failed_alternatives
         new_OneOrMoreContext app orb].
  destruct (existsb succeeded (fst (run_blocks blocks w))).
  - reflexivity.
  - destruct (flat_map failures_of (fst (run_blocks blocks w))); reflexivity.
Qed.

Lemma run_blocks_length (blocks : list (M unit)) :
  forall w, length (fst (run_blocks blocks w)) = length blocks.
Proof.
  induction blocks as [| b rest IH]; intros w; cbn [run_blocks].
  - reflexivity.
  - destruct (b _) as [r s']. specialize (IH (world s')).
    destruct (run_blocks rest (world s')) as [rs w']. cbn in *.
    rewrite IH. reflexivity.
Qed.

Lemma run_blocks_effects (blocks : list (M unit)) :
  forall (marks : list (list string)) (w : World),
    Forall2 (fun b m =>
               forall s, effects (world (snd (b s)))
                         = (effects (world s) ++ m)%list) blocks marks ->
    effects (snd (run_blocks blocks w)) = (effects w ++ concat marks)%list.
Proof.
  induction blocks as [| b rest IH]; intros marks w Hmarks;
    inversion Hmarks as [| ? m ? ms Hb Hrest]; subst; cbn [run_blocks concat].
  - rewrite app_nil_r. reflexivity.
  - specialize (Hb {| _one_or_more_context := None; world := w |}).
    destruct (b _) as [r s']. specialize (IH ms (world s') Hrest).
    destruct (run_blocks rest (world s')) as [rs w']. cbn [fst snd world] in *.
    rewrite IH, Hb, app_assoc. reflexivity.
Qed.

Lemma all_failed (fails : list (list string)) :
  Forall (fun l => l <> []) fails ->
  Forall settled (map (fun l => Raises (FormatRequirementsUnmet l)) fails)
  /\ existsb succeeded
       (map (fun l => Raises (FormatRequirementsUnmet l)) fails) = false
  /\ flat_map failures_of
       (map (fun l => Raises (FormatRequirementsUnmet l)) fails)
     = concat fails.
Proof.
  induction 1 as [| l fails Hl _ [IH1 [IH2 IH3]]]; cbn.
  - repeat split. constructor.
  - repeat split.
    + constructor; [| exact IH1]. destruct l; [congruence | exact I].
    + exact IH2.
    + rewrite IH3. reflexivity.
Qed.

(** C2: when every [alternative] block of a [require_any] block fails,
    leaving the block raises [FormatRequirementsUnmet] with the failure
    lists of the alternatives one after the other, in the order of the
    blocks; with one alternative, that is its failure list. *)
Theorem require_any_all_alternatives_fail
    (blocks : list (M unit)) (fails : list (list string)) (w : World) :
  blocks <> [] ->
  Forall (fun l => l <> []) fails ->
  fst (run_blocks blocks w)
  = map (fun l => Raises (FormatRequirementsUnmet l)) fails ->
  require_any (alternatives blocks)
    {| _one_or_more_context := None; world := w |}
  = (Raises (FormatRequirementsUnmet (concat fails)),
     {| _one_or_more_context := None; world := snd (run_blocks blocks w) |})
  /\ (forall l,
        fails = [l] ->
        fst (require_any (alternatives blocks)
               {| _one_or_more_context := None; world := w |})
        = Raises (FormatRequirementsUnmet l)).
Proof.
  intros Hblocks Hfails Hrun.
  destruct (all_failed fails Hfails) as [Hset [Hnone Hflat]].
  assert (Hgoal :
    require_any (alternatives blocks)
      {| _one_or_more_context := None; world := w |}
    = (Raises (FormatRequirementsUnmet (concat fails)),
       {| _one_or_more_context := None;
          world := snd (run_blocks blocks w) |})).
  { rewrite require_any_alternatives by (rewrite Hrun; exact Hset).
    rewrite Hrun, Hnone, Hflat.
    destruct (concat fails) as [| d l] eqn:Hcat; [| reflexivity].
    exfalso. pose proof (run_blocks_length blocks w) as Hlen.
    rewrite Hrun, length_map in Hlen.
    destruct fails as [| l0 fails']; cbn in *.
    + destruct blocks; [congruence | discriminate].
    + inversion Hfails; subst. destruct l0; [congruence | discriminate]. }
  split; [exact Hgoal |].
  intros l ->. rewrite Hgoal. cbn. rewrite app_nil_r. reflexivity.
Qed.

Lemma require_any_all_alternatives_fail_witness :
  require_any (alternatives [effect "1" ;; fail "need X";
                             require_file sample_os sample_context
                               "*.csv" (Patterns []) ;; ret tt])
    sample_state
  = (Raises (FormatRequirementsUnmet
               ["need X"; file_requirement_desc "*.csv" []]),
     {| _one_or_more_context := None;
        world := {| open_files := []; next_fd := 3; effects := ["1"] |} |})
  /\ require_any (alternatives [fail "need X"]) sample_state
     = (Raises (FormatRequirementsUnmet ["need X"]), sample_state).
Proof.
  split.
  - apply (require_any_all_alternatives_fail
             [effect "1" ;; fail "need X";
              require_file sample_os sample_context
                "*.csv" (Patterns []) ;; ret tt]
             [["need X"]; [file_requirement_desc "*.csv" []]] sample_world).
    + discriminate.
    + repeat constructor; discriminate.
    + reflexivity.
  - apply (require_any_all_alternatives_fail [fail "need X"] [["need X"]]
             sample_world).
    + discriminate.
    + repeat constructor; discriminate.
    + reflexivity.
Defined.

(** C3: when every [alternative] block of a [require_any] block returns
    or fails, and one of them returns, the [require_any] block returns,
    and the world it leaves is the one reached by running every block,
    first to last, each one to its end: one outcome for each block, and
    the side effects of each block in the log. *)
Theorem require_any_runs_every_alternative
    (blocks : list (M unit)) (w : World) :
  Forall settled (fst (run_blocks blocks w)) ->
  existsb succeeded (fst (run_blocks blocks w)) = true ->
  require_any (alternatives blocks)
    {| _one_or_more_context := None; world := w |}
  = (Returns tt,
     {| _one_or_more_context := None; world := snd (run_blocks blocks w) |})
  /\ length (fst (run_blocks blocks w)) = length blocks
  /\ (forall marks : list (list string),
        Forall2 (fun b m =>
                   forall s, effects (world (snd (b s)))
                             = (effects (world s) ++ m)%list) blocks marks ->
        effects (snd (run_blocks blocks w))
        = (effects w ++ concat marks)%list).
Proof.
  intros Hall Hsome. split; [| split].
  - rewrite (require_any_alternatives blocks w Hall), Hsome. reflexivity.
  - apply run_blocks_length.
  - intros marks Hmarks. apply run_blocks_effects, Hmarks.
Qed.

Lemma require_any_runs_every_alternative_witness :
  require_any (alternatives [effect "1" ;; fail "need X";
                             effect "2";
                             effect "3" ;; fail "need Y";
                             effect "4"])
    sample_state
  = (Returns tt,
     {| _one_or_more_context := None;
        world := {| open_files := []; next_fd := 3;
                    effects := ["1"; "2"; "3"; "4"] |} |})
  /\ require_any (alternatives [effect "1" ;; fail "need X";
                                effect "2" ;; fail "need Y";
                                effect "3"])
       sample_state
     = (Returns tt,
        {| _one_or_more_context := None;
           world := {| open_files := []; next_fd := 3;
                       effects := ["1"; "2"; "3"] |} |}).
Proof.
  split.
  - apply (require_any_runs_every_alternative
             [effect "1" ;; fail "need X"; effect "2";
              effect "3" ;; fail "need Y"; effect "4"] sample_world).
    + repeat constructor.
    + reflexivity.
  - apply (require_any_runs_every_alternative
             [effect "1" ;; fail "need X"; effect "2" ;; fail "need Y";
              effect "3"] sample_world).
    + repeat constructor.
    + reflexivity.
Defined.

Lemma alternative_outside (block : M unit) (s : State) :
  _one_or_more_context s = None ->
  alternative block s
  = (Raises (AssertionError alternative_outside_require_any), s).
Proof.
  intros Hout. unfold alternative. rewrite Hout. reflexivity.
Qed.

(** How an [alternative] block ends, for each way its body can end. *)
Lemma alternative_inside (block : M unit) (s : State)
    (saved : _OneOrMoreContext) :
  _one_or_more_context s = Some saved ->
  alternative block s
  = match block (set_one_or_more_context None s) with
    | (Returns _, s') =>
        (Returns tt,
         set_one_or_more_context
           (Some {| failed_alternatives := failed_alternatives saved;
                    had_successful_alternatives := true |}) s')
    | (Raises (FormatRequirementsUnmet e), s') =>
        (Returns tt,
         set_one_or_more_context
           (Some {| failed_alternatives :=
                      (failed_alternatives saved ++ e)%list;
                    had_successful_alternatives :=
                      had_successful_alternatives saved |}) s')
    | (Raises e, s') =>
        (Raises e, set_one_or_more_context (Some saved) s')
    end.
Proof.
  intros Hin. unfold alternative. rewrite Hin.
  destruct (block (set_one_or_more_context None s)) as [[[] | []] s'];
    reflexivity.
Qed.

(** C10: a [require_any] block entered outside any other leaves the
    context outside any [require_any] block however it ends, so that a
    requirement can be placed next; an [alternative] block puts back the
    scope it saved however its body ends, with the failures of the body
    added when the body failed, marked as successful when the body
    returned, and as it was otherwise. *)
Theorem alternation_scope_restored (block : M unit) (s : State) :
  (_one_or_more_context s = None ->
   _one_or_more_context (snd (require_any block s)) = None
   /\ forall req_type,
        fst (_start_requirement req_type (snd (require_any block s)))
        = Returns tt)
  /\ (forall saved,
        _one_or_more_context s = Some saved ->
        _one_or_more_context (snd (alternative block s))
        = Some
            match fst (block (set_one_or_more_context None s)) with
            | Returns _ =>
                {| failed_alternatives := failed_alternatives saved;
                   had_successful_alternatives := true |}
            | Raises (FormatRequirementsUnmet e) =>
                {| failed_alternatives :=
                     (failed_alternatives saved ++ e)%list;
                   had_successful_alternatives :=
                     had_successful_alternatives saved |}
            | Raises _ => saved
            end).
Proof.
  split.
  - intros Hout. rewrite (require_any_outside block s Hout).
    cbn [snd]. split; [reflexivity |].
    intros req_type. rewrite start_requirement_outside; reflexivity.
  - intros saved Hin. rewrite (alternative_inside block s saved Hin).
    destruct (block (set_one_or_more_context None s)) as [[[] | []] s'];
      reflexivity.
Qed.

Lemma alternation_scope_restored_witness :
  (_one_or_more_context
     (snd (require_any (alternatives [fail "need X"]) sample_state)) = None
   /\ forall req_type,
        fst (_start_requirement req_type
               (snd (require_any (alternatives [fail "need X"])
                       sample_state)))
        = Returns tt)
  /\ _one_or_more_context
       (snd (alternative (fail "need X") sample_state_in_require_any))
     = Some {| failed_alternatives := ["need X"];
               had_successful_alternatives := false |}
  /\ _one_or_more_context
       (snd (alternative (ret tt) sample_state_in_require_any))
     = Some {| failed_alternatives := [];
               had_successful_alternatives := true |}
  /\ _one_or_more_context
       (snd (alternative (raise (OtherException "KeyError"))
               sample_state_in_require_any))
     = Some new_OneOrMoreContext.
Proof.
  split; [| split; [| split]].
  - apply (proj1 (alternation_scope_restored
                    (alternatives [fail "need X"]) sample_state)).
    reflexivity.
  - apply (proj2 (alternation_scope_restored (fail "need X")
                    sample_state_in_require_any) new_OneOrMoreContext).
    reflexivity.
  - apply (proj2 (alternation_scope_restored (ret tt)
                    sample_state_in_require_any) new_OneOrMoreContext).
    reflexivity.
  - apply (proj2 (alternation_scope_restored
                    (raise (OtherException "KeyError"))
                    sample_state_in_require_any) new_OneOrMoreContext).
    reflexivity.
Defined.

(** ** [probe_text_file] *)

Section Probe.

Variable os : OS.
Variable self : FormatDetectionContext.
Context {A : Type}.
Variables path requirement_desc : string.
Variable block : TextIO -> M A.
Variable s : State.

Lemma probe_text_file_inside (c : _OneOrMoreContext) :
  _one_or_more_context s = Some c ->
  probe_text_file os self path requirement_desc block s
  = (Raises (AssertionError (placed_within_require_any "probe_text_file")),
     s).
Proof.
  intros Hin. unfold probe_text_file. unfold bind at 1.
  rewrite (start_requirement_inside _ _ _ Hin). reflexivity.
Qed.

Lemma probe_text_file_outside_root :
  _one_or_more_context s = None ->
  _is_path_within_root path = false ->
  probe_text_file os self path requirement_desc block s
  = (Raises (FormatRequirementsUnmet
               [requirement_desc_full path requirement_desc]), s).
Proof.
  intros Hout Hroot. unfold probe_text_file. unfold bind at 1.
  rewrite (start_requirement_outside _ _ Hout).
  unfold bind at 1. rewrite Hroot. cbn [negb].
  rewrite (fail_outside _ _ _ Hout). reflexivity.
Qed.

Lemma probe_text_file_not_opened :
  _one_or_more_context s = None ->
  _is_path_within_root path = true ->
  open_text os (posixpath.join (_root_path self) path) = None ->
  probe_text_file os self path requirement_desc block s
  = (Raises (FormatRequirementsUnmet
               [requirement_desc_full path requirement_desc]), s).
Proof.
  intros Hout Hroot Hopen. unfold probe_text_file. unfold bind at 1.
  rewrite (start_requirement_outside _ _ Hout).
  unfold bind at 1. rewrite Hroot. cbn [negb ret].
  unfold with_open, open, bind. rewrite Hopen.
  cbn [raise probe_text_file_handler isinstance_Exception].
  rewrite (fail_outside _ _ _ Hout). reflexivity.
Qed.

Lemma probe_text_file_opened (t : string) :
  _one_or_more_context s = None ->
  _is_path_within_root path = true ->
  open_text os (posixpath.join (_root_path self) path) = Some t ->
  probe_text_file os self path requirement_desc block s
  = match block (opened_file s t) (after_open s) with
    | (Returns a, s') => (Returns a, after_close (opened_file s t) s')
    | (Raises e, s') =>
        probe_text_file_handler
          (requirement_desc_full path requirement_desc) e
          (after_close (opened_file s t) s')
    end.
Proof.
  intros Hout Hroot Hopen. unfold probe_text_file. unfold bind at 1.
  rewrite (start_requirement_outside _ _ Hout).
  unfold bind at 1. rewrite Hroot. cbn [negb ret].
  unfold with_open, open. rewrite Hopen.
  unfold bind, get_world, put_world, ret, try_finally, close.
  fold (after_open s). fold (opened_file s t).
  destruct (block (opened_file s t) (after_open s)) as [[a | e] s'];
    reflexivity.
Qed.

End Probe.

Lemma probe_text_file_handler_exception (A : Type) (full : string)
    (e : exn) (s : State) :
  _one_or_more_context s = None ->
  isinstance_Exception e = true ->
  (forall l, e <> FormatRequirementsUnmet l) ->
  @probe_text_file_handler A full e s
  = (Raises (FormatRequirementsUnmet [full]), s).
Proof.
  intros Hout Hexc Hother.
  destruct e as [l | msg | name | name]; cbn in *.
  - exfalso. apply (Hother l). reflexivity.
  - apply fail_outside, Hout.
  - apply fail_outside, Hout.
  - discriminate.
Qed.

(** C4: placed outside any [require_any] block, with a block that leaves
    the context as nested [with] statements do, [probe_text_file] returns
    exactly when the path passes the traversal check, the file opens and
    the block returns; a [FormatRequirementsUnmet] raised by the block
    comes out unchanged; and when the path is rejected, the file does not
    open, or the block raises any other [Exception], what is raised is
    [FormatRequirementsUnmet] with the single description made of the
    path and the description given. *)
Theorem probe_text_file_outcome
    (os : OS) (self : FormatDetectionContext) (A : Type)
    (path requirement_desc : string) (block : TextIO -> M A) (s : State) :
  _one_or_more_context s = None ->
  well_bracketed block ->
  (forall a,
     fst (probe_text_file os self path requirement_desc block s) = Returns a
     <-> _is_path_within_root path = true
         /\ exists t,
              open_text os (posixpath.join (_root_path self) path) = Some t
              /\ fst (block (opened_file s t) (after_open s)) = Returns a)
  /\ (forall t l,
        _is_path_within_root path = true ->
        open_text os (posixpath.join (_root_path self) path) = Some t ->
        fst (block (opened_file s t) (after_open s))
        = Raises (FormatRequirementsUnmet l) ->
        fst (probe_text_file os self path requirement_desc block s)
        = Raises (FormatRequirementsUnmet l))
  /\ (_is_path_within_root path = false
      \/ open_text os (posixpath.join (_root_path self) path) = None
      \/ (exists t e,
            open_text os (posixpath.join (_root_path self) path) = Some t
            /\ fst (block (opened_file s t) (after_open s)) = Raises e
            /\ isinstance_Exception e = true
            /\ forall l, e <> FormatRequirementsUnmet l) ->
      fst (probe_text_file os self path requirement_desc block s)
      = Raises (FormatRequirementsUnmet
                  [requirement_desc_full path requirement_desc])).
Proof.
  intros Hout Hblock.
  destruct (_is_path_within_root path) eqn:Hroot.
  2:{ pose proof (probe_text_file_outside_root os self path requirement_desc
                    block s Hout Hroot) as Hrun.
      rewrite Hrun. cbn [fst]. split; [| split].
      - intros a. split; [discriminate | intros [Hf _]; discriminate].
      - intros t l Hf. discriminate.
      - reflexivity. }
  destruct (open_text os (posixpath.join (_root_path self) path))
    as [t |] eqn:Hopen.
  2:{ pose proof (probe_text_file_not_opened os self path requirement_desc
                    block s Hout Hroot Hopen) as Hrun.
      rewrite Hrun. cbn [fst]. split; [| split].
      - intros a. split; [discriminate |].
        intros [_ [t [Ht _]]]. discriminate.
      - intros t l _ Ht. discriminate.
      - reflexivity. }
  pose proof (probe_text_file_opened os self path requirement_desc block s t
                Hout Hroot Hopen) as Hrun.
  pose proof (Hblock (opened_file s t) (after_open s) Hout) as Hscope.
  rewrite Hrun.
  destruct (block (opened_file s t) (after_open s)) as [[a0 | e] s']
    eqn:Hb; cbn [fst snd] in *.
  - split; [| split].
    + intros a. split.
      * intros [= ->]. split; [reflexivity |]. exists t.
        rewrite Hb. split; reflexivity.
      * intros [_ [t' [[= <-] Ha]]]. rewrite Hb in Ha. exact Ha.
    + intros t' l _ [= <-] Hraise. rewrite Hb in Hraise. discriminate.
    + intros [Hf | [Hnone | [t' [e [[= <-] [Hraise _]]]]]];
        try discriminate.
      rewrite Hb in Hraise. discriminate.
  - split; [| split].
    + intros a. split.
      * destruct e as [l | msg | name | name];
          cbn [probe_text_file_handler isinstance_Exception raise fst];
          try discriminate;
          rewrite fail_outside by exact Hscope; discriminate.
      * intros [_ [t' [[= <-] Ha]]]. rewrite Hb in Ha. discriminate.
    + intros t' l _ [= <-] Hraise. rewrite Hb in Hraise.
      injection Hraise as ->. reflexivity.
    + intros [Hf | [Hnone | [t' [e' [[= <-] [Hraise [Hexc Hother]]]]]]];
        try discriminate.
      rewrite Hb in Hraise. injection Hraise as <-.
      rewrite probe_text_file_handler_exception; auto.
Qed.

Lemma probe_text_file_outcome_witness :
  (fst (probe_text_file sample_os sample_context "b.txt" "must be text"
          (fun f => ret (text f)) sample_state) = Returns "bee"
   <-> _is_path_within_root "b.txt" = true
       /\ exists t,
            open_text sample_os "/data/b.txt" = Some t
            /\ fst (ret t (after_open sample_state)) = Returns "bee")
  /\ fst (probe_text_file sample_os sample_context "b.txt" "must be text"
            (fun f => require_file sample_os sample_context f.(text)
                        (Patterns [])) sample_state)
     = Raises (FormatRequirementsUnmet [file_requirement_desc "bee" []])
  /\ fst (probe_text_file sample_os sample_context "b.txt" "must be text"
            (fun f => raise (A := unit) (OtherException "ValueError"))
            sample_state)
     = Raises (FormatRequirementsUnmet ["b.txt: must be text"])
  /\ fst (probe_text_file sample_os sample_context "../etc/passwd"
            "must be text" (fun f => ret tt) sample_state)
     = Raises (FormatRequirementsUnmet ["../etc/passwd: must be text"]).
Proof.
  split; [| split; [| split]].
  - apply (proj1 (probe_text_file_outcome sample_os sample_context string
                    "b.txt" "must be text" (fun f => ret (text f))
                    sample_state eq_refl (fun _ _ H => H)) "bee").
  - apply (proj1 (proj2 (probe_text_file_outcome sample_os sample_context
                           string "b.txt" "must be text"
                           (fun f => require_file sample_os sample_context
                                       f.(text) (Patterns []))
                           sample_state eq_refl
                           (fun f s H =>
                              eq_trans
                                (f_equal _one_or_more_context
                                   (require_file_state sample_os
                                      sample_context (text f)
                                      (Patterns []) s)) H))) "bee");
      reflexivity.
  - apply (proj2 (proj2 (probe_text_file_outcome sample_os sample_context
                           unit "b.txt" "must be text"
                           (fun f => raise (OtherException "ValueError"))
                           sample_state eq_refl (fun _ _ H => H)))).
    right. right. exists "bee", (OtherException "ValueError").
    repeat split; discriminate.
  - apply (proj2 (proj2 (probe_text_file_outcome sample_os sample_context
                           unit "../etc/passwd" "must be text"
                           (fun f => ret tt)
                           sample_state eq_refl (fun _ _ H => H)))).
    left. reflexivity.
Defined.

Lemma probe_text_file_handler_world (A : Type) (full : string) (e : exn)
    (s : State) :
  world (snd (@probe_text_file_handler A full e s)) = world s.
Proof.
  destruct e as [l | msg | name | name];
    cbn [probe_text_file_handler isinstance_Exception raise snd];
    try reflexivity; rewrite fail_state; reflexivity.
Qed.

(** C5: the descriptor that [probe_text_file] opened is not open when the
    call is over, whatever the block does and however it ends: by
    returning, by raising [FormatRequirementsUnmet], or by raising
    anything else.  If the block leaves the descriptor table as it found
    it, the table after the call is the table before it.  A call that
    opens no file leaves the world as it was. *)
Theorem probe_text_file_closes_file
    (os : OS) (self : FormatDetectionContext) (A : Type)
    (path requirement_desc : string) (block : TextIO -> M A) (s : State) :
  (forall t,
     _one_or_more_context s = None ->
     _is_path_within_root path = true ->
     open_text os (posixpath.join (_root_path self) path) = Some t ->
     ~ In (fileno (opened_file s t))
         (open_files
            (world (snd (probe_text_file os self path requirement_desc
                           block s))))
     /\ (~ In (next_fd (world s)) (open_files (world s)) ->
         open_files (world (snd (block (opened_file s t) (after_open s))))
         = open_files (world (after_open s)) ->
         open_files
           (world (snd (probe_text_file os self path requirement_desc
                          block s)))
         = open_files (world s)))
  /\ (_one_or_more_context s <> None
      \/ _is_path_within_root path = false
      \/ open_text os (posixpath.join (_root_path self) path) = None ->
      world (snd (probe_text_file os self path requirement_desc block s))
      = world s).
Proof.
  split.
  - intros t Hout Hroot Hopen.
    rewrite (probe_text_file_opened os self path requirement_desc block s t
               Hout Hroot Hopen).
    assert (Hworld :
      world (snd (match block (opened_file s t) (after_open s) with
                  | (Returns a, s') =>
                      (Returns a, after_close (opened_file s t) s')
                  | (Raises e, s') =>
                      probe_text_file_handler
                        (requirement_desc_full path requirement_desc) e
                        (after_close (opened_file s t) s')
                  end))
      = release (fileno (opened_file s t))
          (world (snd (block (opened_file s t) (after_open s))))).
    { destruct (block (opened_file s t) (after_open s)) as [[a | e] s'];
        cbn [snd]; [reflexivity |].
      rewrite probe_text_file_handler_world. reflexivity. }
    rewrite Hworld. cbn [release open_files]. split.
    + apply remove_In.
    + intros Hfresh Hframe. rewrite Hframe.
      cbn [after_open set_world world allocate open_files opened_file fileno].
      cbn [remove]. destruct (Nat.eq_dec (next_fd (world s))
                                (next_fd (world s))) as [_ | Hne];
        [| congruence].
      apply notin_remove, Hfresh.
  - intros [Hin | [Hroot | Hopen]].
    + destruct (_one_or_more_context s) as [c |] eqn:Hs; [| congruence].
      rewrite (probe_text_file_inside os self path requirement_desc block s
                 c Hs). reflexivity.
    + destruct (_one_or_more_context s) as [c |] eqn:Hs.
      * rewrite (probe_text_file_inside os self path requirement_desc
                   block s c Hs). reflexivity.
      * rewrite (probe_text_file_outside_root os self path requirement_desc
                   block s Hs Hroot). reflexivity.
    + destruct (_one_or_more_context s) as [c |] eqn:Hs.
      * rewrite (probe_text_file_inside os self path requirement_desc
                   block s c Hs). reflexivity.
      * destruct (_is_path_within_root path) eqn:Hroot.
        -- rewrite (probe_text_file_not_opened os self path
                      requirement_desc block s Hs Hroot Hopen). reflexivity.
        -- rewrite (probe_text_file_outside_root os self path
                      requirement_desc block s Hs Hroot). reflexivity.
Qed.

Lemma probe_text_file_closes_file_witness :
  (~ In 3 (open_files
             (world (snd (probe_text_file sample_os sample_context "b.txt"
                            "must be text" (fun f => ret (text f))
                            sample_state))))
   /\ ~ In 3 (open_files
                (world (snd (probe_text_file sample_os sample_context
                               "b.txt" "must be text"
                               (fun f => fail (A := unit) "need X")
                               sample_state))))
   /\ ~ In 3 (open_files
                (world (snd (probe_text_file sample_os sample_context
                               "b.txt" "must be text"
                               (fun f => raise (A := unit)
                                           (BaseExceptionOnly
                                              "KeyboardInterrupt"))
                               sample_state)))))
  /\ open_files
       (world (snd (probe_text_file sample_os sample_context "b.txt"
                      "must be text"
                      (fun f => raise (A := unit)
                                  (OtherException "ValueError"))
                      sample_state)))
     = []
  /\ world (snd (probe_text_file sample_os sample_context "c.txt"
                   "must be text" (fun f => ret tt) sample_state))
     = sample_world.
Proof.
  split; [split; [| split] | split].
  - apply (proj1 (probe_text_file_closes_file sample_os sample_context
                    string "b.txt" "must be text" (fun f => ret (text f))
                    sample_state) "bee"); reflexivity.
  - apply (proj1 (probe_text_file_closes_file sample_os sample_context
                    unit "b.txt" "must be text" (fun f => fail "need X")
                    sample_state) "bee"); reflexivity.
  - apply (proj1 (probe_text_file_closes_file sample_os sample_context
                    unit "b.txt" "must be text"
                    (fun f => raise (BaseExceptionOnly "KeyboardInterrupt"))
                    sample_state) "bee"); reflexivity.
  - apply (proj1 (probe_text_file_closes_file sample_os sample_context
                    unit "b.txt" "must be text"
                    (fun f => raise (OtherException "ValueError"))
                    sample_state) "bee"); try reflexivity.
    intros [].
  - apply (proj2 (probe_text_file_closes_file sample_os sample_context
                    unit "c.txt" "must be text" (fun f => ret tt)
                    sample_state)).
    right. right. reflexivity.
Defined.

(** ** Misuse of the interface *)

Lemma require_file_inside
    (os : OS) (self : FormatDetectionContext) (pattern : string)
    (exclude_fnames : fnames) (s : State) (c : _OneOrMoreContext) :
  _one_or_more_context s = Some c ->
  require_file os self pattern exclude_fnames s
  = (Raises (AssertionError (placed_within_require_any "require_file")), s).
Proof.
  intros Hin. unfold require_file. unfold bind at 1.
  rewrite (start_requirement_inside _ _ _ Hin). reflexivity.
Qed.

Lemma require_any_block_raises (block : M unit) (s s1 : State) (e : exn) :
  _one_or_more_context s = None ->
  block (set_one_or_more_context (Some new_OneOrMoreContext) s)
  = (Raises e, s1) ->
  require_any block s = (Raises e, set_one_or_more_context None s1).
Proof.
  intros Hout Hblock. rewrite (require_any_outside block s Hout).
  unfold bind. rewrite Hblock. reflexivity.
Qed.

Lemma require_any_no_alternative (block : M unit) (s s1 : State) :
  _one_or_more_context s = None ->
  block (set_one_or_more_context (Some new_OneOrMoreContext) s)
  = (Returns tt, s1) ->
  _one_or_more_context s1 = Some new_OneOrMoreContext ->
  require_any block s
  = (Raises (AssertionError no_alternative_block),
     set_one_or_more_context None s1).
Proof.
  intros Hout Hblock Hscope. rewrite (require_any_outside block s Hout).
  unfold bind. rewrite Hblock. unfold require_any_exit. rewrite Hscope.
  reflexivity.
Qed.

(** C6, as the code has it: a requirement placed directly within a
    [require_any] block, and a [require_any] block left without any
    [alternative] block having run, raise [AssertionError], which is not
    [FormatRequirementsUnmet]; [require_any], [alternative] and
    [apply_format_detector] let an [AssertionError] through as it is, and
    a [probe_text_file] block around it raises [FormatRequirementsUnmet]
    with its own description instead, as for any other [Exception]. *)
Theorem contract_violation_raises_assertion
    (os : OS) (self : FormatDetectionContext) (s : State) :
  (forall c,
     _one_or_more_context s = Some c ->
     (forall (A : Type) (requirement_desc : string),
        @fail A requirement_desc s
        = (Raises (AssertionError (placed_within_require_any "fail")), s))
     /\ (forall pattern exclude_fnames,
           require_file os self pattern exclude_fnames s
           = (Raises (AssertionError
                        (placed_within_require_any "require_file")), s))
     /\ (forall (A : Type) path requirement_desc (block : TextIO -> M A),
           probe_text_file os self path requirement_desc block s
           = (Raises (AssertionError
                        (placed_within_require_any "probe_text_file")), s))
     /\ (forall block,
           require_any block s
           = (Raises (AssertionError
                        (placed_within_require_any "require_any")), s)))
  /\ (forall block s1,
        _one_or_more_context s = None ->
        block (set_one_or_more_context (Some new_OneOrMoreContext) s)
        = (Returns tt, s1) ->
        _one_or_more_context s1 = Some new_OneOrMoreContext ->
        require_any block s
        = (Raises (AssertionError no_alternative_block),
           set_one_or_more_context None s1))
  /\ (forall block message s1,
        _one_or_more_context s = None ->
        block (set_one_or_more_context (Some new_OneOrMoreContext) s)
        = (Raises (AssertionError message), s1) ->
        require_any block s
        = (Raises (AssertionError message),
           set_one_or_more_context None s1))
  /\ (forall saved block message s1,
        _one_or_more_context s = Some saved ->
        block (set_one_or_more_context None s)
        = (Raises (AssertionError message), s1) ->
        alternative block s
        = (Raises (AssertionError message),
           set_one_or_more_context (Some saved) s1))
  /\ (forall dataset_root_path (detector : FormatDetector) message s1,
        isdir os dataset_root_path = true ->
        detector {| _root_path := dataset_root_path |}
          {| _one_or_more_context := None; world := world s |}
        = (Raises (AssertionError message), s1) ->
        apply_format_detector os dataset_root_path detector (world s)
        = (Raises (AssertionError message), world s1))
  /\ (forall (A : Type) path requirement_desc (block : TextIO -> M A)
             t message s1,
        _one_or_more_context s = None ->
        _is_path_within_root path = true ->
        open_text os (posixpath.join (_root_path self) path) = Some t ->
        block (opened_file s t) (after_open s)
        = (Raises (AssertionError message), s1) ->
        _one_or_more_context s1 = None ->
        probe_text_file os self path requirement_desc block s
        = (Raises (FormatRequirementsUnmet
                     [requirement_desc_full path requirement_desc]),
           after_close (opened_file s t) s1)).
Proof.
  split; [| split; [| split; [| split; [| split]]]].
  - intros c Hin. split; [| split; [| split]].
    + intros A requirement_desc. apply (fail_inside _ _ _ _ Hin).
    + intros pattern exclude_fnames.
      apply (require_file_inside _ _ _ _ _ _ Hin).
    + intros A path requirement_desc block.
      apply (probe_text_file_inside _ _ _ _ _ _ _ Hin).
    + intros block. apply (require_any_inside _ _ _ Hin).
  - intros block s1 Hout Hblock Hscope.
    apply require_any_no_alternative; assumption.
  - intros block message s1 Hout Hblock.
    apply require_any_block_raises; assumption.
  - intros saved block message s1 Hin Hblock.
    rewrite (alternative_inside block s saved Hin), Hblock. reflexivity.
  - intros root detector message s1 Hdir Hdet.
    unfold apply_format_detector, bind. rewrite Hdir. cbn [negb ret].
    rewrite Hdet. reflexivity.
  - intros A path requirement_desc block t message s1 Hout Hroot Hopen
      Hblock Hscope.
    rewrite (probe_text_file_opened os self path requirement_desc block s t
               Hout Hroot Hopen), Hblock.
    apply probe_text_file_handler_exception;
      [exact Hscope | reflexivity | discriminate].
Qed.

Lemma contract_violation_raises_assertion_witness :
  (@fail unit "need X" sample_state_in_require_any
   = (Raises (AssertionError (placed_within_require_any "fail")),
      sample_state_in_require_any)
   /\ require_file sample_os sample_context "b.txt" (Patterns [])
        sample_state_in_require_any
      = (Raises (AssertionError (placed_within_require_any "require_file")),
         sample_state_in_require_any))
  /\ require_any (ret tt) sample_state
     = (Raises (AssertionError no_alternative_block), sample_state)
  /\ require_any (require_any (ret tt)) sample_state
     = (Raises (AssertionError (placed_within_require_any "require_any")),
        sample_state)
  /\ alternative (alternative (ret tt)) sample_state_in_require_any
     = (Raises (AssertionError alternative_outside_require_any),
        sample_state_in_require_any)
  /\ apply_format_detector sample_os "/data"
       (fun _ => require_any (ret tt) ;; ret None) sample_world
     = (Raises (AssertionError no_alternative_block), sample_world)
  /\ probe_text_file sample_os sample_context "b.txt" "must be text"
       (fun _ => require_any (ret tt)) sample_state
     = (Raises (FormatRequirementsUnmet ["b.txt: must be text"]),
        after_close (opened_file sample_state "bee")
          (after_open sample_state)).
Proof.
  pose proof (contract_violation_raises_assertion sample_os sample_context
                sample_state_in_require_any) as Hinside.
  pose proof (contract_violation_raises_assertion sample_os sample_context
                sample_state) as Houtside.
  destruct Hinside as [Hplaced [_ [_ [Halt _]]]].
  destruct Houtside as [_ [Hnone [Hany [_ [Happly Hprobe]]]]].
  destruct (Hplaced new_OneOrMoreContext eq_refl) as [Hfail [Hfile _]].
  split; [split | split; [| split; [| split; [| split]]]].
  - apply Hfail.
  - apply Hfile.
  - apply (Hnone (ret tt) sample_state_in_require_any); reflexivity.
  - apply (Hany (require_any (ret tt))
             (placed_within_require_any "require_any")
             sample_state_in_require_any); reflexivity.
  - apply (Halt new_OneOrMoreContext (alternative (ret tt))
             alternative_outside_require_any sample_state); reflexivity.
  - apply (Happly "/data" (fun _ => require_any (ret tt) ;; ret None)
             no_alternative_block sample_state); reflexivity.
  - apply (Hprobe unit "b.txt" "must be text"
             (fun _ => require_any (ret tt)) "bee" no_alternative_block
             (after_open sample_state)); reflexivity.
Defined.

(** C6, as the claim has it, fails: a [require_any] block without any
    [alternative] block, or with a requirement placed directly within it,
    raises [AssertionError], and inside a [probe_text_file] block that
    error comes out as [FormatRequirementsUnmet]; the dispatcher then
    reports the misuse as a dataset that does not match. *)
Lemma contract_violation_converted_by_probe_text_file :
  fst (require_any (ret tt) (after_open sample_state))
  = Raises (AssertionError no_alternative_block)
  /\ fst (probe_text_file sample_os sample_context "b.txt" "must be text"
            (fun _ => require_any (ret tt)) sample_state)
     = Raises (FormatRequirementsUnmet ["b.txt: must be text"])
  /\ fst (require_any (fail "need X") (after_open sample_state))
     = Raises (AssertionError (placed_within_require_any "fail"))
  /\ fst (probe_text_file sample_os sample_context "b.txt" "must be text"
            (fun _ => require_any (fail "need X")) sample_state)
     = Raises (FormatRequirementsUnmet ["b.txt: must be text"])
  /\ fst (apply_format_detector sample_os "/data"
            (fun context =>
               probe_text_file sample_os context "b.txt" "must be text"
                 (fun _ => require_any (ret tt)) ;;
               ret None)
            sample_world)
     = Raises (FormatRequirementsUnmet ["b.txt: must be text"]).
Proof. repeat split. Qed.

(** * Further properties of the detection context *)

(** ** The traversal check *)

Lemma split_slash_free (c : string) :
  slash_free c -> Str.split posixpath.sep_char c = [c].
Proof.
  unfold slash_free. induction c as [| d c IH]; cbn [Str.split Str.mem].
  - reflexivity.
  - intros Hmem. apply orb_false_iff in Hmem. destruct Hmem as [Hd Hc].
    rewrite Ascii.eqb_sym, Hd, (IH Hc). reflexivity.
Qed.

Lemma split_app_sep (c s : string) :
  slash_free c ->
  Str.split posixpath.sep_char (c ++ "/" ++ s)
  = c :: Str.split posixpath.sep_char s.
Proof.
  unfold slash_free. induction c as [| d c IH]; intros Hmem;
    cbn [Str.split Str.mem String.append] in *.
  - reflexivity.
  - apply orb_false_iff in Hmem. destruct Hmem as [Hd Hc].
    rewrite Ascii.eqb_sym, Hd, (IH Hc). reflexivity.
Qed.

(** Splitting undoes joining, for segments without separator. *)
Lemma split_join (l : list string) :
  l <> [] -> Forall slash_free l ->
  Str.split posixpath.sep_char (Str.join "/" l) = l.
Proof.
  unfold Str.join.
  induction l as [| c l IH]; [congruence |]. intros _ Hall.
  inversion Hall as [| ? ? Hc Hl]; subst.
  destruct l as [| d l].
  - cbn [String.concat]. apply split_slash_free, Hc.
  - change (String.concat "/" (c :: d :: l))
      with (c ++ "/" ++ String.concat "/" (d :: l)).
    rewrite (split_app_sep _ _ Hc), IH; [reflexivity | discriminate | exact Hl].
Qed.

Lemma startswith_parent_head (c s : string) :
  slash_free c ->
  Str.startswith "../" (c ++ "/" ++ s) = true -> c = "..".
Proof.
  unfold slash_free, Str.startswith. intros Hc Hpre.
  apply String.prefix_correct in Hpre. cbn [String.length] in Hpre.
  destruct c as [| a [| b [| d c]]]; cbn in Hpre; try discriminate.
  - injection Hpre; intros; subst. reflexivity.
  - injection Hpre; intros; subst. cbn in Hc. discriminate.
Qed.

Lemma startswith_parent_join (c : string) (l : list string) :
  slash_free c ->
  Str.startswith "../" (Str.join "/" (c :: l)) = true -> c = "..".
Proof.
  intros Hc. unfold Str.join. destruct l as [| d l].
  - cbn [String.concat]. unfold Str.startswith. intros Hpre.
    apply String.prefix_correct in Hpre. cbn [String.length] in Hpre.
    destruct c as [| a [| b [| e c]]]; cbn in Hpre; try discriminate.
    injection Hpre; intros; subst. cbn in Hc. discriminate.
  - change (String.concat "/" (c :: d :: l))
      with (c ++ "/" ++ String.concat "/" (d :: l)).
    apply startswith_parent_head, Hc.
Qed.

Lemma prefix_nil (s : string) : String.prefix "" s = true.
Proof. destruct s; reflexivity. Qed.

Lemma join_nonempty (c : string) (l : list string) :
  c <> "" -> Str.join "/" (c :: l) <> "".
Proof.
  intros Hc. unfold Str.join. destruct l as [| d l]; cbn [String.concat].
  - exact Hc.
  - destruct c; [congruence | discriminate].
Qed.

(** The normal form of a relative path: the segments that the loop of
    [normpath] keeps, joined, or [.] when none is left. *)
Lemma normpath_relative (path : string) :
  posixpath.isabs path = false -> path <> "" ->
  posixpath.normpath path
  = let kept := fold_left (posixpath.normpath_step 0)
                  (Str.split posixpath.sep_char path) [] in
    if Str.join "/" kept =? "" then "." else Str.join "/" kept.
Proof.
  intros Habs Hne. unfold posixpath.normpath.
  destruct (String.eqb_spec path "") as [-> | _]; [congruence |].
  unfold posixpath.isabs in Habs. rewrite Habs. reflexivity.
Qed.

Lemma last_proper (ps : list string) (c : string) :
  Forall proper_segment (ps ++ [c]) -> last (ps ++ [c]) "" <> "..".
Proof.
  intros Hall. rewrite last_last. apply Forall_app in Hall.
  destruct Hall as [_ Hc]. inversion Hc as [| ? ? [_ [_ Hp]] _]; subst.
  exact Hp.
Qed.

Lemma normpath_step_shape (l : list string) (comp : string) :
  climbs_then_descends l ->
  climbs_then_descends (posixpath.normpath_step 0 l comp).
Proof.
  intros [k [ps [-> Hps]]]. unfold posixpath.normpath_step.
  destruct (String.eqb_spec comp "") as [-> | Hne]; cbn [orb].
  { exists k, ps. split; [reflexivity | exact Hps]. }
  destruct (String.eqb_spec comp ".") as [-> | Hdot]; cbn [orb].
  { exists k, ps. split; [reflexivity | exact Hps]. }
  destruct (String.eqb_spec comp "..") as [-> | Hup]; cbn [negb orb andb].
  2:{ exists k, (ps ++ [comp])%list. split; [symmetry; apply app_assoc |].
      apply Forall_app. split; [exact Hps |]. repeat constructor; assumption. }
  destruct ps as [| p ps] using rev_ind.
  - rewrite app_nil_r. destruct k as [| k]; cbn [Nat.eqb andb orb repeat].
    + exists 1, []. split; [reflexivity | constructor].
    + assert (Hlast : last (".." :: repeat ".." k) "" = "..").
      { clear. induction k as [| k IH]; [reflexivity |].
        cbn [repeat]. cbn [repeat] in IH. cbn [last]. exact IH. }
      cbn [repeat] in Hlast. rewrite Hlast. cbn.
      exists (S (S k)), []. split; [| constructor].
      rewrite app_nil_r. change (".." :: repeat ".." k) with (repeat ".." (S k)).
      rewrite <- repeat_cons. reflexivity.
  - clear IHps. pose proof (last_proper ps p Hps) as Hlast.
    rewrite app_assoc.
    destruct ((repeat ".." k ++ ps) ++ [p])%list as [| x rest] eqn:Hl.
    { destruct (repeat ".." k ++ ps)%list; discriminate. }
    rewrite <- Hl. rewrite last_last.
    rewrite last_last in Hlast.
    destruct (String.eqb_spec p "..") as [-> | _]; [congruence |].
    cbn [orb Nat.eqb andb]. rewrite Hl. cbn [orb andb]. rewrite <- Hl.
    rewrite removelast_last. exists k, ps. split; [reflexivity |].
    apply Forall_app in Hps. apply Hps.
Qed.

Lemma normpath_step_slash_free (n : nat) (l : list string) (comp : string) :
  Forall slash_free l -> slash_free comp ->
  Forall slash_free (posixpath.normpath_step n l comp).
Proof.
  intros Hl Hc. unfold posixpath.normpath_step.
  destruct ((comp =? "") || (comp =? ".")); [exact Hl |].
  match goal with |- Forall _ (if ?b then _ else _) => destruct b end.
  - apply Forall_app. split; [exact Hl | repeat constructor; exact Hc].
  - clear Hc. induction l as [| x l IH] using rev_ind; [constructor |].
    rewrite removelast_last. apply Forall_app in Hl. apply Hl.
Qed.

Lemma normpath_loop_shape (n : nat) (comps l : list string) :
  Forall slash_free comps -> Forall slash_free l ->
  (n = 0 -> climbs_then_descends l) ->
  Forall slash_free (fold_left (posixpath.normpath_step n) comps l)
  /\ (n = 0 ->
      climbs_then_descends (fold_left (posixpath.normpath_step n) comps l)).
Proof.
  revert l. induction comps as [| c comps IH]; intros l Hcomps Hl Hshape;
    cbn [fold_left].
  - split; assumption.
  - inversion Hcomps as [| ? ? Hc Hrest]; subst.
    apply IH; [exact Hrest | apply normpath_step_slash_free; assumption |].
    intros ->. apply normpath_step_shape, Hshape. reflexivity.
Qed.

Lemma kept_segments (path : string) :
  let kept := fold_left (posixpath.normpath_step 0)
                (Str.split posixpath.sep_char path) [] in
  Forall slash_free kept /\ climbs_then_descends kept.
Proof.
  cbn zeta.
  destruct (normpath_loop_shape 0 (Str.split posixpath.sep_char path) [])
    as [Hfree Hshape].
  - apply split_no_sep.
  - constructor.
  - intros _. exists 0, []. split; [reflexivity | constructor].
  - split; [exact Hfree | apply Hshape; reflexivity].
Qed.

Lemma no_parent_among_proper (ps : list string) :
  Forall proper_segment ps -> existsb (fun c => c =? "..") ps = false.
Proof.
  induction 1 as [| p ps [_ [_ Hp]] _ IH]; cbn [existsb]; [reflexivity |].
  rewrite IH. destruct (String.eqb_spec p ".."); [congruence | reflexivity].
Qed.

(** X1: the traversal check lets through a path whose normal form is
    [..] itself, and otherwise only paths whose normal form has no [..]
    segment at all. *)
Theorem accepted_path_stays_below_parent (path : string) :
  _is_path_within_root path = true ->
  posixpath.isabs path = false
  /\ (posixpath.normpath path = ".."
      \/ has_parent_segment (posixpath.normpath path) = false).
Proof.
  unfold _is_path_within_root.
  destruct (posixpath.isabs path) eqn:Habs; cbn [orb]; [discriminate |].
  cbn [posixpath.splitdrive fst String.eqb negb].
  change (".." ++ posixpath.sep) with "../".
  destruct (Str.startswith "../" (posixpath.normpath path)) eqn:Hup;
    [discriminate |].
  intros _. split; [reflexivity |].
  destruct (String.eqb_spec path "") as [-> | Hne]; [right; reflexivity |].
  rewrite (normpath_relative path Habs Hne) in *. cbn zeta in *.
  destruct (kept_segments path) as [Hfree [k [ps [Hkept Hps]]]].
  cbn zeta in Hfree. rewrite Hkept in *.
  destruct k as [| k].
  - right. cbn [repeat app] in *. destruct ps as [| p ps]; [reflexivity |].
    inversion Hps as [| ? ? [Hp _] _]; subst.
    destruct (String.eqb_spec (Str.join "/" (p :: ps)) "") as [Hnil | _].
    { exfalso. exact (join_nonempty p ps Hp Hnil). }
    unfold has_parent_segment. rewrite split_join by (discriminate || exact Hfree).
    apply no_parent_among_proper, Hps.
  - cbn [repeat app] in *.
    destruct (repeat ".." k ++ ps)%list as [| x rest] eqn:Hrest.
    + left. reflexivity.
    + exfalso. unfold Str.join in Hup. cbn [String.concat] in Hup.
      change (String.concat "/" (".." :: x :: rest))
        with ("../" ++ String.concat "/" (x :: rest)) in Hup.
      cbn [String.append String.eqb Ascii.eqb Bool.eqb] in Hup.
      unfold Str.startswith in Hup. cbn [String.prefix] in Hup.
      repeat match type of Hup with
             | context [ascii_dec ?a ?b] =>
                 destruct (ascii_dec a b); [| congruence]
             end.
      rewrite prefix_nil in Hup. discriminate.
Qed.

Lemma accepted_path_stays_below_parent_witness :
  (posixpath.isabs "a/../b.txt" = false
   /\ (posixpath.normpath "a/../b.txt" = ".."
       \/ has_parent_segment (posixpath.normpath "a/../b.txt") = false))
  /\ (posixpath.isabs "a/../.." = false
      /\ (posixpath.normpath "a/../.." = ".."
          \/ has_parent_segment (posixpath.normpath "a/../..") = false)).
Proof.
  split.
  - apply (accepted_path_stays_below_parent "a/../b.txt"). reflexivity.
  - apply (accepted_path_stays_below_parent "a/../.."). reflexivity.
Defined.

Lemma normpath_loop_proper (n : nat) (comps l : list string) :
  existsb (fun c => c =? "..") comps = false ->
  Forall proper_segment l ->
  Forall proper_segment (fold_left (posixpath.normpath_step n) comps l).
Proof.
  revert l. induction comps as [| c comps IH]; intros l Hno Hl;
    cbn [fold_left existsb] in *; [exact Hl |].
  apply orb_false_iff in Hno. destruct Hno as [Hc Hno].
  apply IH; [exact Hno |]. unfold posixpath.normpath_step.
  destruct (String.eqb_spec c "") as [-> | Hne]; cbn [orb]; [exact Hl |].
  destruct (String.eqb_spec c ".") as [-> | Hdot]; cbn [orb]; [exact Hl |].
  rewrite Hc. cbn [negb orb]. apply Forall_app. split; [exact Hl |].
  repeat constructor; try assumption.
  intros ->. discriminate.
Qed.

(** X2: the traversal check accepts every relative path that has no
    [..] segment, the empty path included. *)
Theorem path_without_parent_segment_accepted (path : string) :
  posixpath.isabs path = false ->
  has_parent_segment path = false ->
  _is_path_within_root path = true.
Proof.
  intros Habs Hno. unfold _is_path_within_root. rewrite Habs.
  cbn [posixpath.splitdrive fst String.eqb negb orb].
  change (".." ++ posixpath.sep) with "../".
  destruct (Str.startswith "../" (posixpath.normpath path)) eqn:Hup;
    [| reflexivity].
  exfalso. destruct (String.eqb_spec path "") as [-> | Hne];
    [discriminate |].
  rewrite (normpath_relative path Habs Hne) in Hup. cbn zeta in Hup.
  destruct (kept_segments path) as [Hfree _]. cbn zeta in Hfree.
  pose proof (normpath_loop_proper 0 (Str.split posixpath.sep_char path) []
                Hno (Forall_nil _)) as Hproper.
  destruct (fold_left (posixpath.normpath_step 0)
              (Str.split posixpath.sep_char path) []) as [| p ps].
  - discriminate.
  - inversion Hproper as [| ? ? [Hp [_ Hpp]] _]; subst.
    inversion Hfree as [| ? ? Hpf _]; subst.
    destruct (String.eqb_spec (Str.join "/" (p :: ps)) "") as [Hnil | _].
    + exact (join_nonempty p ps Hp Hnil).
    + apply Hpp. exact (startswith_parent_join p ps Hpf Hup).
Qed.

Lemma path_without_parent_segment_accepted_witness :
  _is_path_within_root "annotations//./train.json" = true
  /\ _is_path_within_root "" = true.
Proof.
  split.
  - apply (path_without_parent_segment_accepted
             "annotations//./train.json"); reflexivity.
  - apply (path_without_parent_segment_accepted ""); reflexivity.
Defined.

(** ** More on [require_file] *)

Lemma fail_raises (A : Type) (requirement_desc : string) (s : State) :
  exists e, @fail A requirement_desc s = (Raises e, s).
Proof.
  destruct (_one_or_more_context s) as [c |] eqn:Hs.
  - rewrite (fail_inside _ _ _ _ Hs). eexists. reflexivity.
  - rewrite (fail_outside _ _ _ Hs). eexists. reflexivity.
Qed.

(** X3: [fail] never returns, and neither [fail] nor [require_file]
    changes anything: the context and the world after the call are those
    before it, whether the call returns or raises. *)
Theorem fail_and_require_file_change_nothing
    (os : OS) (self : FormatDetectionContext) (s : State) :
  (forall (A : Type) (requirement_desc : string),
     exists e, @fail A requirement_desc s = (Raises e, s))
  /\ (forall pattern exclude_fnames,
        snd (require_file os self pattern exclude_fnames s) = s).
Proof.
  split.
  - intros A requirement_desc. apply fail_raises.
  - intros pattern exclude_fnames. apply require_file_state.
Qed.

Lemma require_file_scan_skips
    (os : OS) (self : FormatDetectionContext) (requirement_desc : string)
    (exclude_fnames before rest : list string) (s : State) :
  existsb (qualifies os exclude_fnames) before = false ->
  require_file_scan os self requirement_desc exclude_fnames
    (before ++ rest) s
  = require_file_scan os self requirement_desc exclude_fnames rest s.
Proof.
  induction before as [| p before IH]; cbn [app existsb require_file_scan];
    [reflexivity |].
  intros Hnone. apply orb_false_iff in Hnone. destruct Hnone as [Hp Hnone].
  unfold qualifies in Hp. destruct (isfile os p); [| exact (IH Hnone)].
  destruct (existsb _ exclude_fnames); [exact (IH Hnone) | discriminate].
Qed.

Lemma relpath_defined (cwd path start : string) :
  path <> "" -> exists r, posixpath.relpath cwd path start = Some r.
Proof.
  intros Hne. unfold posixpath.relpath.
  destruct (String.eqb_spec path ""); [congruence |].
  match goal with
  | |- exists r, match ?l with [] => _ | _ => _ end = _ => destruct l
  end; eexists; reflexivity.
Qed.

Lemma require_file_accepted
    (os : OS) (self : FormatDetectionContext) (pattern : string)
    (exclude_fnames : fnames) (s : State) :
  _one_or_more_context s = None ->
  _is_path_within_root pattern = true ->
  require_file os self pattern exclude_fnames s
  = require_file_scan os self
      (file_requirement_desc pattern (fnames_tuple exclude_fnames))
      (fnames_tuple exclude_fnames) (iglob os (pattern_abs self pattern)) s.
Proof.
  intros Hout Hroot. unfold require_file, bind.
  rewrite (start_requirement_outside _ _ Hout), Hroot. reflexivity.
Qed.

(** X4: among the paths the scan yields, [require_file] returns the
    first one that is a regular file with a name no exclusion pattern
    matches, in its form relative to the root; what the scan yields after
    it plays no part. *)
Theorem require_file_returns_first_match
    (os : OS) (self : FormatDetectionContext) (pattern : string)
    (exclude_fnames : fnames) (s : State)
    (before after : list string) (path : string) :
  _one_or_more_context s = None ->
  _is_path_within_root pattern = true ->
  iglob os (pattern_abs self pattern) = (before ++ path :: after)%list ->
  existsb (qualifies os (fnames_tuple exclude_fnames)) before = false ->
  qualifies os (fnames_tuple exclude_fnames) path = true ->
  path <> "" ->
  exists r,
    posixpath.relpath (getcwd os) path (_root_path self) = Some r
    /\ require_file os self pattern exclude_fnames s = (Returns r, s).
Proof.
  intros Hout Hroot Hscan Hbefore Hpath Hne.
  destruct (relpath_defined (getcwd os) path (_root_path self) Hne)
    as [r Hrel].
  exists r. split; [exact Hrel |].
  rewrite (require_file_accepted os self pattern exclude_fnames s Hout Hroot).
  rewrite Hscan, (require_file_scan_skips _ _ _ _ _ _ _ Hbefore).
  cbn [require_file_scan]. unfold qualifies in Hpath.
  destruct (isfile os path); [| discriminate].
  destruct (existsb _ (fnames_tuple exclude_fnames)); [discriminate |].
  rewrite Hrel. reflexivity.
Qed.

Lemma require_file_returns_first_match_witness :
  exists r,
    posixpath.relpath "/" "/data/a/b/c.txt" "/data" = Some r
    /\ require_file sample_os sample_context "**/*.txt" (OnePattern "b.*")
         sample_state
       = (Returns r, sample_state).
Proof.
  apply (require_file_returns_first_match sample_os sample_context
           "**/*.txt" (OnePattern "b.*") sample_state
           ["/data/b.txt"] [] "/data/a/b/c.txt");
    (reflexivity || discriminate).
Defined.

Lemma existsb_split (A : Type) (f : A -> bool) (l : list A) :
  existsb f l = true ->
  exists before x after,
    l = (before ++ x :: after)%list
    /\ existsb f before = false /\ f x = true.
Proof.
  induction l as [| y l IH]; cbn [existsb]; [discriminate |].
  destruct (f y) eqn:Hy; cbn [orb].
  - intros _. exists [], y, l. repeat split. exact Hy.
  - intros Hl. destruct (IH Hl) as [before [x [after [-> [Hb Hx]]]]].
    exists (y :: before), x, after. repeat split; [| exact Hx].
    cbn [existsb]. rewrite Hy, Hb. reflexivity.
Qed.

(** X5: for a pattern that passes the traversal check, placed outside
    any [require_any] block, [require_file] returns exactly when the scan
    yields a regular file with a name no exclusion pattern matches, and
    otherwise raises [FormatRequirementsUnmet] with the description of
    the requirement. *)
Theorem require_file_returns_iff_match
    (os : OS) (self : FormatDetectionContext) (pattern : string)
    (exclude_fnames : fnames) (s : State) :
  _one_or_more_context s = None ->
  _is_path_within_root pattern = true ->
  Forall (fun path => path <> "") (iglob os (pattern_abs self pattern)) ->
  ((exists r,
      require_file os self pattern exclude_fnames s = (Returns r, s))
   <-> existsb (qualifies os (fnames_tuple exclude_fnames))
         (iglob os (pattern_abs self pattern)) = true)
  /\ (existsb (qualifies os (fnames_tuple exclude_fnames))
        (iglob os (pattern_abs self pattern)) = false ->
      require_file os self pattern exclude_fnames s
      = (Raises (FormatRequirementsUnmet
                   [file_requirement_desc pattern
                      (fnames_tuple exclude_fnames)]), s)).
Proof.
  intros Hout Hroot Hpaths.
  assert (Hnone :
    existsb (qualifies os (fnames_tuple exclude_fnames))
      (iglob os (pattern_abs self pattern)) = false ->
    require_file os self pattern exclude_fnames s
    = (Raises (FormatRequirementsUnmet
                 [file_requirement_desc pattern
                    (fnames_tuple exclude_fnames)]), s)).
  { intros Hno.
    rewrite (require_file_accepted os self pattern exclude_fnames s
               Hout Hroot).
    rewrite <- (app_nil_r (iglob os (pattern_abs self pattern))).
    rewrite (require_file_scan_skips _ _ _ _ _ _ _ Hno).
    cbn [require_file_scan]. apply fail_outside, Hout. }
  split; [| exact Hnone]. split.
  - intros [r Hrun].
    destruct (existsb (qualifies os (fnames_tuple exclude_fnames))
                (iglob os (pattern_abs self pattern))) eqn:Hex;
      [reflexivity |].
    rewrite (Hnone eq_refl) in Hrun. discriminate.
  - intros Hex.
    destruct (existsb_split _ _ _ Hex) as [before [x [after [Hl [Hb Hx]]]]].
    assert (Hne : x <> "").
    { rewrite Forall_forall in Hpaths. apply Hpaths. rewrite Hl.
      apply in_or_app. right. left. reflexivity. }
    destruct (relpath_defined (getcwd os) x (_root_path self) Hne)
      as [r Hrel].
    exists r.
    rewrite (require_file_accepted os self pattern exclude_fnames s
               Hout Hroot).
    rewrite Hl, (require_file_scan_skips _ _ _ _ _ _ _ Hb).
    cbn [require_file_scan]. unfold qualifies in Hx.
    destruct (isfile os x); [| discriminate].
    destruct (existsb _ (fnames_tuple exclude_fnames)); [discriminate |].
    rewrite Hrel. reflexivity.
Qed.

Lemma require_file_returns_iff_match_witness :
  ((exists r,
      require_file sample_os sample_context "a/**/*.txt" (Patterns [])
        sample_state = (Returns r, sample_state))
   <-> existsb (qualifies sample_os [])
         (iglob sample_os (pattern_abs sample_context "a/**/*.txt")) = true)
  /\ require_file sample_os sample_context "a/**/*.csv" (Patterns [])
       sample_state
     = (Raises (FormatRequirementsUnmet
                  [file_requirement_desc "a/**/*.csv" []]), sample_state).
Proof.
  split.
  - apply (require_file_returns_iff_match sample_os sample_context
             "a/**/*.txt" (Patterns []) sample_state);
      try reflexivity.
    repeat constructor; discriminate.
  - apply (require_file_returns_iff_match sample_os sample_context
             "a/**/*.csv" (Patterns []) sample_state);
      try reflexivity.
    constructor.
Defined.

(** ** More on [require_any] and [alternative] *)

Lemma alternatives_app (before after : list (M unit)) (s : State) :
  alternatives (before ++ after) s
  = (alternatives before ;; alternatives after) s.
Proof.
  revert s. induction before as [| b before IH]; intros s;
    cbn [app alternatives].
  - reflexivity.
  - unfold bind. destruct (alternative b s) as [[[] | e] s1];
      [| reflexivity].
    rewrite IH. reflexivity.
Qed.

Lemma alternatives_raise (before after : list (M unit)) (b : M unit)
    (c : _OneOrMoreContext) (w : World) (e : exn) (s' : State) :
  Forall settled (fst (run_blocks before w)) ->
  b {| _one_or_more_context := None; world := snd (run_blocks before w) |}
  = (Raises e, s') ->
  (forall l, e <> FormatRequirementsUnmet l) ->
  exists c',
    alternatives (before ++ b :: after)
      {| _one_or_more_context := Some c; world := w |}
    = (Raises e, {| _one_or_more_context := Some c'; world := world s' |}).
Proof.
  intros Hbefore Hb Hother. rewrite alternatives_app. unfold bind at 1.
  rewrite (alternatives_run before c w Hbefore).
  cbn [alternatives]. unfold bind.
  erewrite alternative_inside by reflexivity.
  unfold set_one_or_more_context. cbn [world]. rewrite Hb.
  destruct e as [l | msg | name | name];
    [exfalso; apply (Hother l); reflexivity | | |];
    eexists; reflexivity.
Qed.

(** X6: an [alternative] block whose body raises anything but
    [FormatRequirementsUnmet] ends the [require_any] block at once: the
    exception comes out of [require_any] as it is, the context is left
    outside any [require_any] block, and the [alternative] blocks after
    it are not run. *)
Theorem require_any_aborted_by_other_exception
    (before after : list (M unit)) (b : M unit) (w : World)
    (e : exn) (s' : State) :
  Forall settled (fst (run_blocks before w)) ->
  b {| _one_or_more_context := None; world := snd (run_blocks before w) |}
  = (Raises e, s') ->
  (forall l, e <> FormatRequirementsUnmet l) ->
  require_any (alternatives (before ++ b :: after))
    {| _one_or_more_context := None; world := w |}
  = (Raises e, {| _one_or_more_context := None; world := world s' |}).
Proof.
  intros Hbefore Hb Hother.
  destruct (alternatives_raise before after b new_OneOrMoreContext w e s'
              Hbefore Hb Hother) as [c' Hrun].
  rewrite (require_any_block_raises (alternatives (before ++ b :: after))
             {| _one_or_more_context := None; world := w |}
             {| _one_or_more_context := Some c'; world := world s' |}
             e eq_refl Hrun).
  reflexivity.
Qed.

Lemma require_any_aborted_by_other_exception_witness :
  require_any (alternatives [effect "1" ;; fail "need X";
                             effect "2" ;; raise (OtherException "KeyError");
                             effect "3"])
    sample_state
  = (Raises (OtherException "KeyError"),
     {| _one_or_more_context := None;
        world := {| open_files := []; next_fd := 3;
                    effects := ["1"; "2"] |} |}).
Proof.
  apply (require_any_aborted_by_other_exception
           [effect "1" ;; fail "need X"] [effect "3"]
           (effect "2" ;; raise (OtherException "KeyError")) sample_world
           (OtherException "KeyError")
           {| _one_or_more_context := None;
              world := {| open_files := []; next_fd := 3;
                          effects := ["1"; "2"] |} |}).
  - repeat constructor.
  - reflexivity.
  - discriminate.
Defined.

(** X7: a [require_any] block used as the body of an [alternative]
    block gives the scope around it one outcome: when all its own
    alternatives fail, their failure lists, in order, are added to those
    of the scope around; when one of them returns, the scope around is
    marked as successful and none of their failures is kept. *)
Theorem nested_require_any_reports_to_enclosing_scope
    (inner : list (M unit)) (c : _OneOrMoreContext) (w : World) :
  inner <> [] ->
  Forall settled (fst (run_blocks inner w)) ->
  alternative (require_any (alternatives inner))
    {| _one_or_more_context := Some c; world := w |}
  = (Returns tt,
     {| _one_or_more_context :=
          Some (if existsb succeeded (fst (run_blocks inner w))
                then {| failed_alternatives := failed_alternatives c;
                        had_successful_alternatives := true |}
                else {| failed_alternatives :=
                          (failed_alternatives c
                           ++ flat_map failures_of
                                (fst (run_blocks inner w)))%list;
                        had_successful_alternatives :=
                          had_successful_alternatives c |});
        world := snd (run_blocks inner w) |}).
Proof.
  intros Hinner Hall.
  erewrite alternative_inside by reflexivity.
  unfold set_one_or_more_context. cbn [world].
  rewrite (require_any_alternatives inner w Hall).
  destruct (existsb succeeded (fst (run_blocks inner w))) eqn:Hsome;
    [reflexivity |].
  destruct (flat_map failures_of (fst (run_blocks inner w))) as [| d l]
    eqn:Hflat; [| reflexivity].
  exfalso. pose proof (run_blocks_length inner w) as Hlen.
  destruct (fst (run_blocks inner w)) as [| r rs].
  - destruct inner; [congruence | discriminate].
  - inversion Hall as [| ? ? Hr _]; subst. cbn in Hsome, Hflat.
    destruct r as [[] | [[| d l] | | |]]; cbn in *;
      try discriminate; contradiction.
Qed.

Lemma nested_require_any_reports_to_enclosing_scope_witness :
  require_any
    (alternatives
       [fail "need X";
        require_any (alternatives [fail "need Y"; fail "need Z"])])
    sample_state
  = (Raises (FormatRequirementsUnmet ["need X"; "need Y"; "need Z"]),
     sample_state)
  /\ alternative (require_any (alternatives [fail "need Y"; ret tt]))
       {| _one_or_more_context :=
            Some {| failed_alternatives := ["need X"];
                    had_successful_alternatives := false |};
          world := sample_world |}
     = (Returns tt,
        {| _one_or_more_context :=
             Some {| failed_alternatives := ["need X"];
                     had_successful_alternatives := true |};
           world := sample_world |}).
Proof.
  split.
  - reflexivity.
  - apply (nested_require_any_reports_to_enclosing_scope
             [fail "need Y"; ret tt]
             {| failed_alternatives := ["need X"];
                had_successful_alternatives := false |} sample_world);
      [discriminate | repeat constructor].
Defined.

(** ** Invariants of the requirement-placing methods *)

Lemma fail_describes (A : Type) (requirement_desc : string) (s : State) :
  describes_failure (fst (@fail A requirement_desc s)).
Proof.
  destruct (_one_or_more_context s) as [c |] eqn:Hs.
  - rewrite (fail_inside _ _ _ _ Hs). exact I.
  - rewrite (fail_outside _ _ _ Hs). exact I.
Qed.

Lemma require_file_scan_describes
    (os : OS) (self : FormatDetectionContext) (requirement_desc : string)
    (exclude_fnames paths : list string) (s : State) :
  describes_failure
    (fst (require_file_scan os self requirement_desc exclude_fnames paths s)).
Proof.
  induction paths as [| path rest IH]; cbn [require_file_scan].
  - apply fail_describes.
  - destruct (isfile os path); [| exact IH].
    destruct (existsb _ exclude_fnames); [exact IH |].
    destruct (posixpath.relpath _ path _); exact I.
Qed.

Lemma require_file_describes
    (os : OS) (self : FormatDetectionContext) (pattern : string)
    (exclude_fnames : fnames) (s : State) :
  describes_failure (fst (require_file os self pattern exclude_fnames s)).
Proof.
  destruct (_one_or_more_context s) as [c |] eqn:Hs.
  - rewrite (require_file_inside _ _ _ _ _ _ Hs). exact I.
  - destruct (_is_path_within_root pattern) eqn:Hroot.
    + rewrite (require_file_accepted _ _ _ _ _ Hs Hroot).
      apply require_file_scan_describes.
    + unfold require_file, bind.
      rewrite (start_requirement_outside _ _ Hs), Hroot. cbn [negb].
      rewrite (fail_outside _ _ _ Hs). exact I.
Qed.

Lemma probe_text_file_handler_describes (A : Type) (full : string)
    (e : exn) (s : State) :
  describes_failure (Raises (A := A) e) ->
  describes_failure (fst (@probe_text_file_handler A full e s)).
Proof.
  destruct e as [l | msg | name | name];
    cbn [probe_text_file_handler isinstance_Exception raise fst];
    intros He; try exact He; apply fail_describes.
Qed.

Lemma probe_text_file_describes
    (os : OS) (self : FormatDetectionContext) (A : Type)
    (path requirement_desc : string) (block : TextIO -> M A) (s : State) :
  (forall f t, describes_failure (fst (block f t))) ->
  describes_failure
    (fst (probe_text_file os self path requirement_desc block s)).
Proof.
  intros Hblock. destruct (_one_or_more_context s) as [c |] eqn:Hs.
  { rewrite (probe_text_file_inside _ _ _ _ _ _ _ Hs). exact I. }
  destruct (_is_path_within_root path) eqn:Hroot.
  2:{ rewrite (probe_text_file_outside_root _ _ _ _ _ _ Hs Hroot). exact I. }
  destruct (open_text os (posixpath.join (_root_path self) path))
    as [t |] eqn:Hopen.
  2:{ rewrite (probe_text_file_not_opened _ _ _ _ _ _ Hs Hroot Hopen).
      exact I. }
  rewrite (probe_text_file_opened _ _ _ _ _ _ t Hs Hroot Hopen).
  specialize (Hblock (opened_file s t) (after_open s)).
  destruct (block (opened_file s t) (after_open s)) as [[a | e] s'];
    cbn [fst] in *; [exact I |].
  apply probe_text_file_handler_describes. exact Hblock.
Qed.

Lemma require_any_describes (block : M unit) (s : State) :
  (forall t, describes_failure (fst (block t))) ->
  describes_failure (fst (require_any block s)).
Proof.
  intros Hblock. destruct (_one_or_more_context s) as [c |] eqn:Hs.
  { rewrite (require_any_inside _ _ _ Hs). exact I. }
  rewrite (require_any_outside _ _ Hs). cbn [fst]. unfold bind.
  specialize (Hblock (set_one_or_more_context (Some new_OneOrMoreContext) s)).
  destruct (block _) as [[[] | e] s1]; cbn [fst] in *; [| exact Hblock].
  unfold require_any_exit.
  destruct (_one_or_more_context s1) as [c1 |]; [| exact I].
  destruct (had_successful_alternatives c1); [exact I |].
  destruct (failed_alternatives c1); exact I.
Qed.

Lemma alternative_describes (block : M unit) (s : State) :
  describes_failure (fst (alternative block s)).
Proof.
  unfold alternative. destruct (_one_or_more_context s); [| exact I].
  destruct (block _) as [[[] | []] s']; exact I.
Qed.

(** X8: no method of the context lets out a [FormatRequirementsUnmet]
    without a description: [fail], [require_file] and [alternative]
    never raise one, and [probe_text_file], [require_any] and
    [apply_format_detector] raise one only if the block or detector they
    are given does. *)
Theorem failures_are_described
    (os : OS) (self : FormatDetectionContext) (s : State) :
  (forall (A : Type) requirement_desc,
     describes_failure (fst (@fail A requirement_desc s)))
  /\ (forall pattern exclude_fnames,
        describes_failure
          (fst (require_file os self pattern exclude_fnames s)))
  /\ (forall block, describes_failure (fst (alternative block s)))
  /\ (forall (A : Type) path requirement_desc (block : TextIO -> M A),
        (forall f t, describes_failure (fst (block f t))) ->
        describes_failure
          (fst (probe_text_file os self path requirement_desc block s)))
  /\ (forall block,
        (forall t, describes_failure (fst (block t))) ->
        describes_failure (fst (require_any block s)))
  /\ (forall dataset_root_path (detector : FormatDetector),
        (forall context t, describes_failure (fst (detector context t))) ->
        describes_failure
          (fst (apply_format_detector os dataset_root_path detector
                  (world s)))).
Proof.
  split; [| split; [| split; [| split; [| split]]]].
  - intros A requirement_desc. apply fail_describes.
  - intros pattern exclude_fnames. apply require_file_describes.
  - intros block. apply alternative_describes.
  - intros A path requirement_desc block. apply probe_text_file_describes.
  - intros block. apply require_any_describes.
  - intros root detector Hdet. unfold apply_format_detector, bind.
    destruct (isdir os root); cbn [negb ret].
    + specialize (Hdet {| _root_path := root |}
                    {| _one_or_more_context := None; world := world s |}).
      destruct (detector _ _) as [[r | e] s1]; cbn [fst] in *;
        [exact I | exact Hdet].
    + exact I.
Qed.

Lemma failures_are_described_witness :
  describes_failure
    (fst (probe_text_file sample_os sample_context "b.txt" "must be text"
            (fun f => require_file sample_os sample_context (text f)
                        (Patterns [])) sample_state))
  /\ describes_failure
       (fst (require_any (alternatives [fail "need X"]) sample_state)).
Proof.
  destruct (failures_are_described sample_os sample_context sample_state)
    as [_ [_ [_ [Hprobe [Hany _]]]]].
  split.
  - apply Hprobe. intros f t. apply require_file_describes.
  - apply Hany. intros t. cbn [alternatives]. unfold bind.
    pose proof (alternative_describes (fail "need X") t) as Halt.
    destruct (alternative (fail "need X") t) as [[[] | e] t1];
      [exact I | exact Halt].
Defined.

Lemma require_any_keeps_outside (block : M unit) :
  well_bracketed (fun _ : unit => require_any block).
Proof.
  intros _ s Hs. rewrite (require_any_outside block s Hs). reflexivity.
Qed.

Lemma probe_text_file_keeps_outside
    (os : OS) (self : FormatDetectionContext) (A : Type)
    (path requirement_desc : string) (block : TextIO -> M A) :
  well_bracketed block ->
  well_bracketed
    (fun _ : unit => probe_text_file os self path requirement_desc block).
Proof.
  intros Hblock _ s Hs.
  destruct (_is_path_within_root path) eqn:Hroot.
  2:{ rewrite (probe_text_file_outside_root _ _ _ _ _ _ Hs Hroot). exact Hs. }
  destruct (open_text os (posixpath.join (_root_path self) path))
    as [t |] eqn:Hopen.
  2:{ rewrite (probe_text_file_not_opened _ _ _ _ _ _ Hs Hroot Hopen).
      exact Hs. }
  rewrite (probe_text_file_opened _ _ _ _ _ _ t Hs Hroot Hopen).
  pose proof (Hblock (opened_file s t) (after_open s) Hs) as Hscope.
  destruct (block (opened_file s t) (after_open s)) as [[a | e] s'];
    cbn [snd] in *; [exact Hscope |].
  destruct e as [l | msg | name | name];
    cbn [probe_text_file_handler isinstance_Exception raise snd];
    try exact Hscope; rewrite fail_state; exact Hscope.
Qed.

(** X9: code made of [fail], [require_file], [probe_text_file] blocks,
    [require_any] blocks and sequences of these leaves the context
    outside any [require_any] block when it starts there, however it
    ends. *)
Theorem requirements_keep_context_outside
    (os : OS) (self : FormatDetectionContext) :
  (forall (A : Type) requirement_desc,
     well_bracketed (fun _ : unit => @fail A requirement_desc))
  /\ (forall pattern exclude_fnames,
        well_bracketed
          (fun _ : unit => require_file os self pattern exclude_fnames))
  /\ (forall block, well_bracketed (fun _ : unit => require_any block))
  /\ (forall (A : Type) path requirement_desc (block : TextIO -> M A),
        well_bracketed block ->
        well_bracketed
          (fun _ : unit =>
             probe_text_file os self path requirement_desc block))
  /\ (forall (A B : Type) (m : M A) (k : A -> M B),
        well_bracketed (fun _ : unit => m) ->
        well_bracketed k ->
        well_bracketed (fun _ : unit => x <- m ;; k x)).
Proof.
  split; [| split; [| split; [| split]]].
  - intros A requirement_desc _ s Hs. rewrite fail_state. exact Hs.
  - intros pattern exclude_fnames _ s Hs. rewrite require_file_state.
    exact Hs.
  - intros block. apply require_any_keeps_outside.
  - intros A path requirement_desc block.
    apply probe_text_file_keeps_outside.
  - intros A B m k Hm Hk _ s Hs. unfold bind.
    pose proof (Hm tt s Hs) as Hs1.
    destruct (m s) as [[a | e] s1]; cbn [snd] in *; [| exact Hs1].
    apply Hk, Hs1.
Qed.

Lemma requirements_keep_context_outside_witness :
  _one_or_more_context
    (snd (probe_text_file sample_os sample_context "b.txt" "must be text"
            (fun f =>
               require_any
                 (alternatives
                    [require_file sample_os sample_context (text f)
                       (Patterns []) ;; ret tt;
                     fail "need X"]))
            sample_state))
  = None.
Proof.
  destruct (requirements_keep_context_outside sample_os sample_context)
    as [_ [_ [Hany [Hprobe _]]]].
  apply (Hprobe unit "b.txt" "must be text"
           (fun f =>
              require_any
                (alternatives
                   [require_file sample_os sample_context (text f)
                      (Patterns []) ;; ret tt;
                    fail "need X"])) ltac:(intros f; apply (Hany _ tt))
           tt sample_state).
  reflexivity.
Defined.

(** ** The world around [probe_text_file] and the dispatcher *)

(** X10: when [probe_text_file] opens the file, the world it leaves is
    the one its block left, run once on the opened file, with the
    descriptor of that file closed: descriptors the block opened and the
    log of side effects are as the block left them. *)
Theorem probe_text_file_world
    (os : OS) (self : FormatDetectionContext) (A : Type)
    (path requirement_desc : string) (block : TextIO -> M A) (s : State)
    (t : string) :
  _one_or_more_context s = None ->
  _is_path_within_root path = true ->
  open_text os (posixpath.join (_root_path self) path) = Some t ->
  world (snd (probe_text_file os self path requirement_desc block s))
  = release (next_fd (world s))
      (world (snd (block {| fileno := next_fd (world s); text := t |}
                     (after_open s))))
  /\ (forall fd,
        fd <> next_fd (world s) ->
        (In fd (open_files
                  (world (snd (probe_text_file os self path
                                 requirement_desc block s))))
         <-> In fd (open_files
                      (world (snd (block {| fileno := next_fd (world s);
                                            text := t |}
                                     (after_open s)))))))
  /\ effects (world (snd (probe_text_file os self path requirement_desc
                            block s)))
     = effects (world (snd (block {| fileno := next_fd (world s);
                                     text := t |} (after_open s)))).
Proof.
  intros Hout Hroot Hopen.
  assert (Hworld :
    world (snd (probe_text_file os self path requirement_desc block s))
    = release (next_fd (world s))
        (world (snd (block {| fileno := next_fd (world s); text := t |}
                       (after_open s))))).
  { rewrite (probe_text_file_opened os self path requirement_desc block s t
               Hout Hroot Hopen).
    fold (opened_file s t).
    destruct (block (opened_file s t) (after_open s)) as [[a | e] s'];
      cbn [snd]; [reflexivity |].
    rewrite probe_text_file_handler_world. reflexivity. }
  split; [exact Hworld | split].
  - intros fd Hfd. rewrite Hworld. cbn [release open_files]. split.
    + intros Hin. apply in_remove in Hin. apply Hin.
    + intros Hin. apply in_in_remove; assumption.
  - rewrite Hworld. reflexivity.
Qed.

Lemma probe_text_file_world_witness :
  world (snd (probe_text_file sample_os sample_context "b.txt"
                "must be text"
                (fun f => effect (text f) ;; fail (A := unit) "need X")
                sample_state))
  = {| open_files := []; next_fd := 4; effects := ["bee"] |}.
Proof.
  apply (probe_text_file_world sample_os sample_context unit "b.txt"
           "must be text"
           (fun f => effect (text f) ;; fail "need X") sample_state "bee");
    reflexivity.
Defined.

(** X11: [apply_format_detector] returns a level only when the root is
    a directory and the detector returned, the level being the
    detector's or [MEDIUM] for [None], with a positive value; and
    whatever a detector raises on a directory comes out as it is. *)
Theorem apply_format_detector_outcome
    (os : OS) (dataset_root_path : string) (detector : FormatDetector)
    (w : World) :
  (forall level w',
     apply_format_detector os dataset_root_path detector w
     = (Returns level, w') ->
     isdir os dataset_root_path = true
     /\ (0 < value level)%Z
     /\ exists r s',
          detector {| _root_path := dataset_root_path |}
            {| _one_or_more_context := None; world := w |} = (Returns r, s')
          /\ level = match r with Some l => l | None => MEDIUM end
          /\ w' = world s')
  /\ (forall e s',
        isdir os dataset_root_path = true ->
        detector {| _root_path := dataset_root_path |}
          {| _one_or_more_context := None; world := w |} = (Raises e, s') ->
        apply_format_detector os dataset_root_path detector w
        = (Raises e, world s')).
Proof.
  split.
  - intros level w' Hrun. unfold apply_format_detector, bind in Hrun.
    destruct (isdir os dataset_root_path); cbn [negb ret] in Hrun.
    + destruct (detector _ _) as [[r | e] s1] eqn:Hdet; [| discriminate].
      injection Hrun as <- <-. split; [reflexivity |].
      split; [apply value_positive |]. exists r, s1.
      split; [reflexivity |]. split; [| reflexivity].
      destruct r as [l |]; [apply or_MEDIUM_level | reflexivity].
    + cbn in Hrun. discriminate.
  - intros e s' Hdir Hdet. unfold apply_format_detector, bind.
    rewrite Hdir. cbn [negb ret]. rewrite Hdet. reflexivity.
Qed.

Lemma apply_format_detector_outcome_witness :
  (isdir sample_os "/data" = true
   /\ (0 < value LOW)%Z
   /\ exists r s',
        (require_file sample_os sample_context "b.txt" (Patterns []) ;;
         ret (Some LOW)) sample_state = (Returns r, s')
        /\ LOW = match r with Some l => l | None => MEDIUM end
        /\ sample_world = world s')
  /\ apply_format_detector sample_os "/data"
       (fun _ => raise (OtherException "KeyError")) sample_world
     = (Raises (OtherException "KeyError"), sample_world).
Proof.
  split.
  - apply (proj1 (apply_format_detector_outcome sample_os "/data"
                    (fun context =>
                       require_file sample_os context "b.txt" (Patterns []) ;;
                       ret (Some LOW)) sample_world) LOW sample_world).
    reflexivity.
  - apply (proj2 (apply_format_detector_outcome sample_os "/data"
                    (fun _ => raise (OtherException "KeyError"))
                    sample_world) (OtherException "KeyError") sample_state);
      reflexivity.
Defined.
